(** * KernelComm: the frontend side of the Spyder kernel comm

    A shallow embedding of
    [spyder/plugins/ipythonconsole/comms/kernelcomm.py] (class
    [KernelComm]) and the properties of its priority ("comm") channel
    negotiation, scoped channel routing, call dispatch and blocking wait.

    Python objects are records, attributes that may be missing
    ([hasattr]) or [None] are options, dictionaries are [gmap]s, and a
    method is a computation in a state-and-exception monad over the
    [KernelComm] object together with a trace of the calls it makes to its
    collaborators (zmq, jupyter_client, CommBase, Qt, logging). *)

From Stdlib Require Import ZArith String List Bool Lia.
From stdpp Require Import base option gmap strings list fin_maps.

Local Open Scope Z_scope.

(** ** Python values, messages and exceptions *)

Inductive pyval :=
| VNone
| VBool (b : bool)
| VInt (z : Z)
| VStr (s : string).

(** Truth value of an object, as [and], [or], [not] and [if] use it. *)
Definition truthy (v : pyval) : bool :=
  match v with
  | VNone => false
  | VBool b => b
  | VInt z => negb (z =? 0)
  | VStr s => negb (String.eqb s EmptyString)
  end.

(** A message is a literal, or [template.format(d)] for a waitlist [d]
    (call id to blocking flag; the callback of an entry is not modelled). *)
Inductive message :=
| Msg (text : string)
| MsgFormat (template : string) (arg : gmap string bool).

(** The exception classes the module meets.  [CommError] is
    [spyder_kernels.comms.commbase.CommError], a subclass of
    [RuntimeError]; [TimeoutError] is the built-in one (an [OSError]). *)
Inductive exn :=
| RuntimeError (msg : string)
| CommError (msg : string)
| TimeoutError (msg : message)
| KeyError (key : string)
| TypeError (msg : string)
| OtherError (cls : string) (msg : string).

(** [isinstance(e, RuntimeError)], what [except RuntimeError] tests. *)
Definition is_RuntimeError (e : exn) : bool :=
  match e with
  | RuntimeError _ | CommError _ => true
  | _ => false
  end.

(** ** Channels, signals, the kernel client and the comm object *)

(** A channel built from a zmq socket: the socket type name it was
    created for, the port it is connected to, the socket identity. *)
Record Channel := mkChannel {
  chan_name : string;
  chan_port : Z;
  chan_identity : string
}.

(** A Qt slot connected to a signal: [quit] of some event loop (loops
    are told apart by an object identity), or anything else. *)
Inductive slot :=
| LoopQuit (loop : nat)
| OtherSlot (name : string).

Inductive signal :=
| SigGotReply
| SigCommPortChanged
| SigKernelDied.

#[global] Instance Channel_eq_dec : EqDecision Channel.
Proof. solve_decision. Defined.
#[global] Instance slot_eq_dec : EqDecision slot.
Proof. solve_decision. Defined.
#[global] Instance signal_eq_dec : EqDecision signal.
Proof. solve_decision. Defined.

(** [kernel_client]: the attributes of the jupyter/qtconsole client the
    module reads and writes.  [ssh_parameters] and [comm_port] are [None]
    when the attribute does not exist ([hasattr] is false);
    [comm_channel] is [None] for Python's [None]. *)
Record KernelClient := mkClient {
  ssh_parameters : option (string * string * string);
  ip : string;
  comm_port : option Z;
  bsession : string;
  shell_channel : Channel;
  comm_channel : option Channel;
  alive : bool;
  kernel_died : list slot
}.

(** [self._comms[comm_id]['comm']]: only its outgoing channel matters. *)
Record Comm := mkComm {
  _send_channel : option Channel
}.

Record KernelComm := mkKernelComm {
  remote_comm_port : option Z;
  kernel_client : KernelClient;
  _comms : gmap string Comm;
  calling_comm_id : option string;
  _reply_waitlist : gmap string bool;
  _reply_inbox : gmap string pyval;
  _sig_got_reply : list slot;
  _sig_comm_port_changed : list slot
}.

(** Attribute assignment. *)
Definition set_comm_port (p : option Z) (c : KernelClient) : KernelClient :=
  mkClient (ssh_parameters c) (ip c) p (bsession c) (shell_channel c)
           (comm_channel c) (alive c) (kernel_died c).
Definition set_comm_channel (ch : option Channel) (c : KernelClient) : KernelClient :=
  mkClient (ssh_parameters c) (ip c) (comm_port c) (bsession c) (shell_channel c)
           ch (alive c) (kernel_died c).
Definition set_alive (b : bool) (c : KernelClient) : KernelClient :=
  mkClient (ssh_parameters c) (ip c) (comm_port c) (bsession c) (shell_channel c)
           (comm_channel c) b (kernel_died c).
Definition set_kernel_died (l : list slot) (c : KernelClient) : KernelClient :=
  mkClient (ssh_parameters c) (ip c) (comm_port c) (bsession c) (shell_channel c)
           (comm_channel c) (alive c) l.

Definition set_remote_comm_port (p : option Z) (s : KernelComm) : KernelComm :=
  mkKernelComm p (kernel_client s) (_comms s) (calling_comm_id s)
               (_reply_waitlist s) (_reply_inbox s) (_sig_got_reply s)
               (_sig_comm_port_changed s).
Definition set_kernel_client (c : KernelClient) (s : KernelComm) : KernelComm :=
  mkKernelComm (remote_comm_port s) c (_comms s) (calling_comm_id s)
               (_reply_waitlist s) (_reply_inbox s) (_sig_got_reply s)
               (_sig_comm_port_changed s).
Definition set_comms (m : gmap string Comm) (s : KernelComm) : KernelComm :=
  mkKernelComm (remote_comm_port s) (kernel_client s) m (calling_comm_id s)
               (_reply_waitlist s) (_reply_inbox s) (_sig_got_reply s)
               (_sig_comm_port_changed s).
Definition set_reply_waitlist (m : gmap string bool) (s : KernelComm) : KernelComm :=
  mkKernelComm (remote_comm_port s) (kernel_client s) (_comms s) (calling_comm_id s)
               m (_reply_inbox s) (_sig_got_reply s) (_sig_comm_port_changed s).
Definition set_reply_inbox (m : gmap string pyval) (s : KernelComm) : KernelComm :=
  mkKernelComm (remote_comm_port s) (kernel_client s) (_comms s) (calling_comm_id s)
               (_reply_waitlist s) m (_sig_got_reply s) (_sig_comm_port_changed s).
Definition set_sig_got_reply (l : list slot) (s : KernelComm) : KernelComm :=
  mkKernelComm (remote_comm_port s) (kernel_client s) (_comms s) (calling_comm_id s)
               (_reply_waitlist s) (_reply_inbox s) l (_sig_comm_port_changed s).
Definition set_sig_comm_port_changed (l : list slot) (s : KernelComm) : KernelComm :=
  mkKernelComm (remote_comm_port s) (kernel_client s) (_comms s) (calling_comm_id s)
               (_reply_waitlist s) (_reply_inbox s) (_sig_got_reply s) l.

(** ** Call dictionaries *)

(** [call_dict]: the name and id of the call, its [settings] dictionary,
    and the optional [comm_port] entry ([Some None] when the key is there
    with value [None]). *)
Record CallDict := mkCall {
  call_name : string;
  call_id : string;
  settings : gmap string pyval;
  call_comm_port : option (option Z)
}.

(** ['k' in settings and settings['k']], used as a condition. *)
Definition setting (k : string) (c : CallDict) : bool :=
  match settings c !! k with
  | Some v => truthy v
  | None => false
  end.

(** ** The trace of calls to collaborators *)

Inductive tunnel_impl := Paramiko | OpenSSH.
Inductive level := Debug | Info.

Inductive logarg :=
| StrCall (c : CallDict)
| StrExn (e : exn).

Inductive event :=
| EvSshTunnel (impl : tunnel_impl) (local_port remote_port : Z)
              (hostname remote_ip sshkey password : string) (timeout : Z)
| EvCreateSocket (channel : string) (identity : string) (port : Z)
| EvNewChannel (c : Channel)
| EvEmit (s : signal)
| EvSendCommConfig
| EvChannelSend (c : Channel) (msg_type : string) (comm_id : string)
| EvCommSendMsg (comm_id : string) (msg_type : string)
| EvNewComm (comm_id : string)
| EvLog (lvl : level) (text : string) (concat : option CallDict) (args : list logarg)
| EvBaseOnIncomingCall (c : CallDict)
| EvBaseGetCall (c : CallDict) (comm_id : option string) (comms : gmap string Comm)
| EvBaseSetReturn (c : CallDict) (is_error : bool) (comms : gmap string Comm)
| EvTimerStart (msec : Z).

(** ** The monad: state, trace and exceptions *)

Record World := mkWorld {
  self : KernelComm;
  trace : list event
}.

Inductive Result (A : Type) :=
| Ok (a : A)
| Raise (e : exn).
Arguments Ok {A} a.
Arguments Raise {A} e.

Definition Py (A : Type) : Type := World -> Result A * World.

Definition ret {A} (a : A) : Py A := fun w => (Ok a, w).
Definition raise {A} (e : exn) : Py A := fun w => (Raise e, w).
Definition bind {A B} (m : Py A) (k : A -> Py B) : Py B :=
  fun w => match m w with
           | (Ok a, w') => k a w'
           | (Raise e, w') => (Raise e, w')
           end.

Declare Scope py_scope.
Delimit Scope py_scope with py.
Notation "x <- c1 ;; c2" := (bind c1 (fun x => c2))
  (at level 20, c1 at level 99, c2 at level 200, only parsing) : py_scope.
Notation "c1 ;; c2" := (bind c1 (fun _ => c2))
  (at level 100, c2 at level 200, only parsing, right associativity) : py_scope.
Local Open Scope py_scope.

Definition get : Py KernelComm := fun w => (Ok (self w), w).
Definition modify (f : KernelComm -> KernelComm) : Py unit :=
  fun w => (Ok tt, mkWorld (f (self w)) (trace w)).
Definition modify_client (f : KernelClient -> KernelClient) : Py unit :=
  modify (fun s => set_kernel_client (f (kernel_client s)) s).
Definition tell (e : event) : Py unit :=
  fun w => (Ok tt, mkWorld (self w) (trace w ++ [e])).

(** [try: body finally: fin].  The finaliser runs on both exits; an
    exception it raises replaces the outcome of the body. *)
Definition try_finally {A} (body : Py A) (fin : Py unit) : Py A :=
  fun w => match body w with
           | (r, w1) => match fin w1 with
                        | (Ok _, w2) => (r, w2)
                        | (Raise e, w2) => (Raise e, w2)
                        end
           end.

(** [try: body except RuntimeError as e: handler(e)]. *)
Definition try_except_RuntimeError {A} (body : Py A) (handler : exn -> Py A) : Py A :=
  fun w => match body w with
           | (Raise e, w1) => if is_RuntimeError e then handler e w1 else (Raise e, w1)
           | ok => ok
           end.

(** A method of a collaborator that works on the object only: it cannot
    log to the trace.  [ev] records the call and what it could see. *)
Definition call_base {A} (ev : KernelComm -> event)
    (f : KernelComm -> Result A * KernelComm) : Py A :=
  fun w => match f (self w) with
           | (r, s') => (r, mkWorld s' (trace w ++ [ev (self w)]))
           end.

(** ** Signals *)

Definition connections (sg : signal) (s : KernelComm) : list slot :=
  match sg with
  | SigGotReply => _sig_got_reply s
  | SigCommPortChanged => _sig_comm_port_changed s
  | SigKernelDied => kernel_died (kernel_client s)
  end.

Definition set_connections (sg : signal) (l : list slot) (s : KernelComm) : KernelComm :=
  match sg with
  | SigGotReply => set_sig_got_reply l s
  | SigCommPortChanged => set_sig_comm_port_changed l s
  | SigKernelDied => set_kernel_client (set_kernel_died l (kernel_client s)) s
  end.

(** [signal.connect(slot)] *)
Definition connect (sg : signal) (sl : slot) : Py unit :=
  modify (fun s => set_connections sg (connections sg s ++ [sl]) s).

(** [signal.disconnect(slot)]: a [TypeError] when the slot is not
    connected. *)
Definition disconnect (sg : signal) (sl : slot) : Py unit :=
  s <- get ;;
  if bool_decide (sl ∈ connections sg s)
  then modify (set_connections sg (filter (fun x => x <> sl) (connections sg s)))
  else raise (TypeError "disconnect() failed between signal and slot").

(** [signal.emit()]: the slots it calls, in connection order. *)
Definition emit (sg : signal) : Py (list slot) :=
  s <- get ;;
  tell (EvEmit sg) ;;
  ret (connections sg s).

(** [for x in l: f(x)] *)
Fixpoint for_each {A} (l : list A) (f : A -> Py unit) : Py unit :=
  match l with
  | [] => ret tt
  | x :: rest => f x ;; for_each rest f
  end.

(** ** Collaborators *)

(** What one call of [_set_comm_port] gets from its environment:
    [os.name == 'nt'], the port [zmqtunnel.select_random_ports(1)[0]]
    returns, and the exception the tunnel raises when it fails. *)
Record PortEnv := mkPortEnv {
  os_nt : bool;
  random_port : Z;
  tunnel_failure : option exn
}.

Record Socket := mkSocket {
  sock_channel : string;
  sock_port : Z;
  sock_identity : string
}.

(** [jupyter_client]'s [_create_connected_socket(channel, identity)]
    connects to the url made from the attribute [<channel>_port]; here the
    channel is always ['comm']. *)
Definition _create_connected_socket (channel : string) (identity : string) : Py Socket :=
  s <- get ;;
  match comm_port (kernel_client s) with
  | Some p =>
      tell (EvCreateSocket channel identity p) ;;
      ret (mkSocket channel p identity)
  | None => raise (OtherError "AttributeError" "comm_port")
  end.

(** [client.shell_channel_class(socket, client.session, client.ioloop)] *)
Definition shell_channel_class (socket : Socket) : Py Channel :=
  let ch := mkChannel (sock_channel socket) (sock_port socket) (sock_identity socket) in
  tell (EvNewChannel ch) ;;
  ret ch.

(** [CommBase.get_comm_id_list]: every registered comm for [None], the
    given id otherwise.  Python lists the keys of [_comms] in the order in
    which the comms were registered; a [gmap] lists them in an order of its
    own.  So the order inside the list is not the program's in general:
    the general statements below depend on the elements of the list only,
    and an example in which the order matters says which order it has. *)
Definition get_comm_id_list (comm_id : option string) : Py (list string) :=
  s <- get ;;
  match comm_id with
  | None => ret (map fst (map_to_list (_comms s)))
  | Some c => ret [c]
  end.

(** [self.remote_call()._send_comm_config()]: one request to the kernel
    to send its comm configuration (and so its comm port) again. *)
Definition send_comm_config : Py unit := tell EvSendCommConfig.

(** The methods of [CommBase] that [KernelComm] overrides and calls
    through [super()]. *)
Class CommBase := {
  super_set_call_return_value :
    CallDict -> pyval -> bool -> KernelComm -> Result unit * KernelComm;
  super_get_call_return_value :
    CallDict -> pyval -> option string -> KernelComm -> Result pyval * KernelComm;
  super_on_incoming_call :
    CallDict -> KernelComm -> Result pyval * KernelComm
}.

(** ** The methods of [KernelComm] *)

Definition ssh_tunnel (env : PortEnv) (local_port remote_port : Z)
    (hostname remote_ip sshkey password : string) (timeout : Z) : Py unit :=
  tell (EvSshTunnel (if os_nt env then Paramiko else OpenSSH)
                    local_port remote_port hostname remote_ip sshkey password timeout) ;;
  match tunnel_failure env with
  | Some e => raise e
  | None => ret tt
  end.

Definition _set_comm_port (env : PortEnv) (port : option Z) : Py unit :=
  s <- get ;;
  match port with
  | None => ret tt
  | Some advertised =>
    if bool_decide (Some advertised = remote_comm_port s) then ret tt else
    modify (set_remote_comm_port (Some advertised)) ;;
    let client := kernel_client s in
    port <- match ssh_parameters client with
            | Some (hostname, sshkey, password) =>
                let local_port := random_port env in
                let remote_port := advertised in
                let remote_ip := ip client in
                ssh_tunnel env local_port remote_port hostname remote_ip
                           sshkey password 10 ;;
                ret local_port
            | None => ret advertised
            end ;;
    if negb (bool_decide (comm_port client = Some port)) then
      modify_client (set_comm_port (Some port)) ;;
      let identity := bsession client in
      socket <- _create_connected_socket "comm" identity ;;
      ch <- shell_channel_class socket ;;
      modify_client (set_comm_channel (Some ch)) ;;
      _ <- emit SigCommPortChanged ;;
      ret tt
    else ret tt
  end.

Definition shutdown_comm_channel : Py unit :=
  s <- get ;;
  match comm_channel (kernel_client s) with
  | Some channel =>
      id_list <- get_comm_id_list None ;;
      for_each id_list (fun comm_id =>
        tell (EvChannelSend channel "shutdown_request" comm_id)) ;;
      modify_client (set_comm_channel None)
  | None => ret tt
  end.

Definition comm_channel_connected : Py bool :=
  s <- get ;;
  ret (bool_decide (comm_channel (kernel_client s) <> None)).

(** [self._comms[comm_id]['comm']._send_channel = channel(self)] *)
Definition assign_send_channel (channel : KernelClient -> option Channel)
    (comm_id : string) : Py unit :=
  s <- get ;;
  match _comms s !! comm_id with
  | Some _ =>
      modify (set_comms (<[comm_id := mkComm (channel (kernel_client s))]> (_comms s)))
  | None => raise (KeyError comm_id)
  end.

(** The context manager: [with self.comm_channel_manager(comm_id,
    queue_message): body]. *)
Definition comm_channel_manager {A} (comm_id : option string) (queue_message : bool)
    (body : Py A) : Py A :=
  if queue_message then body
  else
    connected <- comm_channel_connected ;;
    if negb connected then
      send_comm_config ;;
      raise (CommError "Comm not connected.")
    else
      id_list <- get_comm_id_list comm_id ;;
      for_each id_list (assign_send_channel comm_channel) ;;
      try_finally body
        (for_each id_list (assign_send_channel (fun c => Some (shell_channel c)))).

Definition remove (comm_id : option string) : Py unit :=
  id_list <- get_comm_id_list comm_id ;;
  for_each id_list (fun comm_id =>
    s <- get ;;
    match _comms s !! comm_id with
    | Some _ => modify (set_comms (delete comm_id (_comms s)))
    | None => raise (KeyError comm_id)
    end).

Definition close (comm_id : option string) : Py unit :=
  shutdown_comm_channel ;;
  id_list <- get_comm_id_list comm_id ;;
  for_each id_list (fun comm_id =>
    s <- get ;;
    match _comms s !! comm_id with
    | Some _ => tell (EvCommSendMsg comm_id "comm_close")
    | None => raise (KeyError comm_id)
    end).

(** [open_comm(kernel_client)]; [new_id] is the id of the comm that
    [comm_manager.new_comm] creates, which sends on the shell channel
    until it is rebound. *)
Definition open_comm (new_id : string) (client : KernelClient) : Py unit :=
  modify (set_kernel_client client) ;;
  modify_client (set_comm_channel None) ;;
  tell (EvNewComm new_id) ;;
  modify (fun s => set_comms (<[new_id := mkComm (Some (shell_channel client))]> (_comms s)) s).

(** The object that [__init__] builds, with [client] as its
    [kernel_client].  [__init__] itself leaves [kernel_client] at [None]
    and [open_comm] assigns it; the record has no value for that [None],
    so the model starts at an object that has a client.  On the object
    with [kernel_client = None] every method that reads an attribute of
    [self.kernel_client] ([shutdown_comm_channel], [close],
    [comm_channel_connected], the dispatcher, [_wait]) raises
    [AttributeError]; the statements below are about objects that have a
    client and say nothing about that one. *)
Definition init (client : KernelClient) : KernelComm :=
  mkKernelComm None client ∅ None ∅ ∅ [] [].

Section Methods.
Context `{CommBase}.

Definition _set_call_return_value (call_dict : CallDict) (data : pyval)
    (is_error : bool) : Py unit :=
  connected <- comm_channel_connected ;;
  let queue_message := negb connected in
  s <- get ;;
  comm_channel_manager (calling_comm_id s) queue_message
    (call_base (fun s => EvBaseSetReturn call_dict is_error (_comms s))
               (super_set_call_return_value call_dict data is_error)).

Definition on_incoming_call (env : PortEnv) (call_dict : CallDict) : Py pyval :=
  match call_comm_port call_dict with
  | Some port => _set_comm_port env port
  | None => ret tt
  end ;;
  call_base (fun _ => EvBaseOnIncomingCall call_dict)
            (super_on_incoming_call call_dict).

Definition _get_call_return_value (call_dict : CallDict) (call_data : pyval)
    (comm_id : option string) : Py pyval :=
  let blocking := setting "blocking" call_dict in
  s <- get ;;
  if negb (alive (kernel_client s)) then
    if blocking then raise (RuntimeError "Kernel is dead")
    else
      tell (EvLog Info "Dropping message because kernel is dead: " None
                  [StrCall call_dict]) ;;
      ret VNone
  else
  let interrupt := setting "interrupt" call_dict in
  let interrupt := interrupt || blocking in
  connected <- comm_channel_connected ;;
  interrupt <-
    (if interrupt && negb connected then
       send_comm_config ;;
       tell (EvLog Debug "Dropping interrupt because comm is disconnected: "
                   (Some call_dict) []) ;;
       if blocking then raise (CommError "Cannot block on a disconnected comm")
       else ret false
     else ret interrupt) ;;
  try_except_RuntimeError
    (comm_channel_manager comm_id (negb interrupt)
       (call_base (fun s => EvBaseGetCall call_dict comm_id (_comms s))
                  (super_get_call_return_value call_dict call_data comm_id)))
    (fun e =>
       if blocking then raise e
       else
         tell (EvLog Info "Dropping message because of exception: " None
                     [StrExn e; StrCall call_dict]) ;;
         ret VNone).

End Methods.

(** ** The blocking wait *)

(** Modelled from the spec: [CommBase._handle_remote_call_reply], which
    [_handle_remote_call_reply] calls through [super()], is code of
    spyder_kernels and not part of this module.  The spec gives the base
    capability the task to "maintain the outstanding-call table and reply
    inbox" (section 1); of a pending call it says "created when a blocking
    call is issued; removed from the outstanding set once the wait
    resolves", with the states SENT, then REPLIED, TIMED_OUT or FAILED, and
    of a reply record "written once by the dispatcher side that produced
    the reply; read once by the waiter" (section 3); and "a late reply that
    arrives after a timeout is still written into the reply inbox"
    (section 5).  So the reply for an outstanding blocking call takes the
    call out of [_reply_waitlist] and stores the payload in [_reply_inbox]
    under the call id.  The spec is silent on two cases: here a reply for a
    call that is not outstanding is ignored, and the reply for an
    outstanding call that is not blocking only takes the call out of the
    waitlist (its callback is not modelled). *)
Definition base_handle_remote_call_reply (call_id : string) (buffer : pyval) : Py unit :=
  s <- get ;;
  match _reply_waitlist s !! call_id with
  | None => ret tt
  | Some blocking =>
      modify (set_reply_waitlist (delete call_id (_reply_waitlist s))) ;;
      if (blocking : bool)
      then modify (fun s : KernelComm =>
                     set_reply_inbox (<[call_id := buffer]> (_reply_inbox s)) s)
      else ret tt
  end.

(** [_handle_remote_call_reply]; the result is the list of slots that
    [_sig_got_reply.emit()] calls. *)
Definition _handle_remote_call_reply (call_id : string) (buffer : pyval) : Py (list slot) :=
  base_handle_remote_call_reply call_id buffer ;;
  emit SigGotReply.

(** The local objects of one [_wait]: the event loop (its identity) and
    the single-shot timer with the connections of its [timeout] signal. *)
Record WaitFrame := mkFrame {
  wait_loop : nat;
  timer_active : bool;
  timer_interval : Z;
  timer_timeout : list slot
}.

(** What the Qt event loop can deliver while [wait_loop.exec_()] runs: a
    reply message, the death of the kernel (the heartbeat channel emits
    [kernel_died] and [is_alive()] turns false), the expiry of the timer. *)
Inductive qt_event :=
| ReplyArrives (call_id : string) (buffer : pyval)
| KernelDies
| TimerFires.

(** One event: its effect, and the slots its signal calls. *)
Definition deliver (fr : WaitFrame) (ev : qt_event) : Py (WaitFrame * list slot) :=
  match ev with
  | ReplyArrives call_id buffer =>
      slots <- _handle_remote_call_reply call_id buffer ;;
      ret (fr, slots)
  | KernelDies =>
      modify_client (set_alive false) ;;
      slots <- emit SigKernelDied ;;
      ret (fr, slots)
  | TimerFires =>
      if timer_active fr
      then ret (mkFrame (wait_loop fr) false (timer_interval fr) (timer_timeout fr),
                timer_timeout fr)
      else ret (fr, [])
  end.

(** [Returned]: the method returned.  [StillWaiting]: the events given
    are used up and [wait_loop.exec_()] has not returned. *)
Inductive wait_status := Returned | StillWaiting.

(** The head of the [while] loop of [_wait]: [Some] when the method is
    left there, [None] when [wait_loop.exec_()] is entered (again). *)
Definition wait_iteration (condition : KernelComm -> bool) (sg : signal)
    (timeout_msg : message) (fr : WaitFrame) : Py (option wait_status) :=
  s <- get ;;
  if condition s then
    (* after the loop: wait_timeout.stop() and the two disconnects *)
    disconnect sg (LoopQuit (wait_loop fr)) ;;
    disconnect SigKernelDied (LoopQuit (wait_loop fr)) ;;
    ret (Some Returned)
  else if negb (timer_active fr) then
    disconnect sg (LoopQuit (wait_loop fr)) ;;
    disconnect SigKernelDied (LoopQuit (wait_loop fr)) ;;
    s <- get ;;
    if condition s then ret (Some Returned)
    else if negb (alive (kernel_client s)) then raise (RuntimeError "Kernel is dead")
    else raise (TimeoutError timeout_msg)
  else ret None.

(** [wait_loop.exec_()] and the rest of the [while] loop: events are
    handled one by one; one that calls [wait_loop.quit] ends [exec_] and
    the loop head is evaluated again. *)
Fixpoint exec_ (condition : KernelComm -> bool) (sg : signal)
    (timeout_msg : message) (events : list qt_event) (fr : WaitFrame)
    : Py wait_status :=
  match events with
  | [] => ret StillWaiting
  | ev :: rest =>
      r <- deliver fr ev ;;
      if bool_decide (LoopQuit (wait_loop (fst r)) ∈ snd r) then
        st <- wait_iteration condition sg timeout_msg (fst r) ;;
        match st with
        | Some st => ret st
        | None => exec_ condition sg timeout_msg rest (fst r)
        end
      else exec_ condition sg timeout_msg rest (fst r)
  end.

(** [_wait(condition, signal, timeout_msg, timeout)]; [loop] is the
    identity of the [QEventLoop] it creates and [events] what the event
    loop delivers, in order. *)
Definition _wait (loop : nat) (condition : KernelComm -> bool) (sg : signal)
    (timeout_msg : message) (timeout : Z) (events : list qt_event)
    : Py wait_status :=
  s <- get ;;
  if condition s then ret Returned
  else if negb (alive (kernel_client s)) then raise (RuntimeError "Kernel is dead")
  else
    let quit := LoopQuit loop in
    (* wait_timeout.timeout.connect(wait_loop.quit) *)
    connect SigKernelDied quit ;;
    connect sg quit ;;
    (* wait_timeout.start(timeout * 1000) *)
    let fr := mkFrame loop true (timeout * 1000) [quit] in
    tell (EvTimerStart (timer_interval fr)) ;;
    st <- wait_iteration condition sg timeout_msg fr ;;
    match st with
    | Some st => ret st
    | None => exec_ condition sg timeout_msg events fr
    end.

Definition got_reply (call_id : string) (s : KernelComm) : bool :=
  bool_decide (is_Some (_reply_inbox s !! call_id)).

Definition _wait_reply (loop : nat) (call_id call_name : string) (timeout : Z)
    (events : list qt_event) : Py wait_status :=
  s <- get ;;
  let timeout_msg := MsgFormat "Timeout while waiting for {}" (_reply_waitlist s) in
  _wait loop (got_reply call_id) SigGotReply timeout_msg timeout events.

(** ** Reading a trace *)

Definition is_new_channel (e : event) : bool :=
  match e with EvNewChannel _ => true | _ => false end.
Definition is_port_changed (e : event) : bool :=
  match e with EvEmit SigCommPortChanged => true | _ => false end.
Definition is_send_comm_config (e : event) : bool :=
  match e with EvSendCommConfig => true | _ => false end.
Definition is_log (e : event) : bool :=
  match e with EvLog _ _ _ _ => true | _ => false end.
Definition is_info_log (e : event) : bool :=
  match e with EvLog Info _ _ _ => true | _ => false end.
Definition is_base_call (e : event) : bool :=
  match e with
  | EvBaseGetCall _ _ _ | EvBaseSetReturn _ _ _ | EvBaseOnIncomingCall _ => true
  | _ => false
  end.
(** A message to the kernel: the request for the comm configuration, a
    message on a channel, a message of a comm. *)
Definition is_sent (e : event) : bool :=
  match e with
  | EvSendCommConfig | EvChannelSend _ _ _ | EvCommSendMsg _ _ => true
  | _ => false
  end.

(** The intervals, in ms, with which a timer was started. *)
Definition timer_started (t : list event) : list Z :=
  omap (fun e => match e with EvTimerStart msec => Some msec | _ => None end) t.

Definition count (p : event -> bool) (t : list event) : nat :=
  length (List.filter p t).

(** Run a method on an object with an empty trace. *)
Definition run {A} (m : Py A) (s : KernelComm) : Result A * World :=
  m (mkWorld s []).

(** ** Concrete objects for the examples *)

Module Fixture.

Definition after {A} (m : Py A) (s : KernelComm) : KernelComm := self (snd (run m s)).

Definition shell0 : Channel := mkChannel "shell" 4000 "sess".
Definition comm5555 : Channel := mkChannel "comm" 5555 "sess".

(** A local kernel and a remote one (reached through ssh). *)
Definition local_client : KernelClient :=
  mkClient None "127.0.0.1" None "sess" shell0 None true [].
Definition remote_client : KernelClient :=
  mkClient (Some ("gateway", "id_rsa", "secret")) "10.0.0.5" None "sess" shell0 None true [].

Definition env_ok : PortEnv := mkPortEnv false 7000 None.
Definition env_tunnel_down : PortEnv :=
  mkPortEnv false 7000 (Some (RuntimeError "tunnel '%s' failed to start")).

(** A comm opened on the local kernel; then port 5555 advertised; then
    the comm channel shut down. *)
Definition kc_open : KernelComm := after (open_comm "c1" local_client) (init local_client).
Definition kc_installed : KernelComm := after (_set_comm_port env_ok (Some 5555)) kc_open.
Definition kc_shutdown : KernelComm := after shutdown_comm_channel kc_installed.

(** A second [KernelComm] opened on the client of the first. *)
Definition kc_second : KernelComm :=
  after (open_comm "c2" (kernel_client kc_installed)) (init (kernel_client kc_installed)).

Definition kc_remote : KernelComm := after (open_comm "c1" remote_client) (init remote_client).

(** The kernel is dead. *)
Definition kc_dead : KernelComm :=
  set_kernel_client (set_alive false (kernel_client kc_open)) kc_open.

(** Two calls are outstanding: the blocking call [a] and the call [b]
    that has a callback. *)
Definition kc_waiting : KernelComm :=
  set_reply_waitlist (<["a" := true]> (<["b" := false]> ∅)) kc_installed.

(** Two blocking calls are outstanding, [a] and [b]. *)
Definition kc_two_blocking : KernelComm :=
  set_reply_waitlist (<["a" := true]> (<["b" := true]> ∅)) kc_installed.

(** Two comms are registered, first [c1], then [c2], and the channel for
    port 5555 is installed. *)
Definition kc_two_comms : KernelComm :=
  after (_set_comm_port env_ok (Some 5555)) (after (open_comm "c2" local_client) kc_open).

Definition call (sets : list (string * pyval)) : CallDict :=
  mkCall "get_value" "a" (list_to_map sets) None.
Definition blocking_call : CallDict := call [("blocking", VBool true)].
Definition interrupt_call : CallDict := call [("interrupt", VBool true)].
Definition plain_call : CallDict := call [].

(** A base class whose methods do nothing, and one whose
    [_get_call_return_value] fails with the given exception. *)
Definition quiet_base : CommBase :=
  {| super_set_call_return_value := fun _ _ _ s => (Ok tt, s);
     super_get_call_return_value := fun _ _ _ s => (Ok VNone, s);
     super_on_incoming_call := fun _ s => (Ok VNone, s) |}.
Definition failing_base (e : exn) : CommBase :=
  {| super_set_call_return_value := fun _ _ _ s => (Ok tt, s);
     super_get_call_return_value := fun _ _ _ s => (Raise e, s);
     super_on_incoming_call := fun _ s => (Ok VNone, s) |}.

End Fixture.

(** ** Notions used in the statements *)

(** The port the channel is connected to: the local end of the tunnel for
    a remote kernel, the advertised port otherwise. *)
Definition resolved_port (env : PortEnv) (s : KernelComm) (advertised : Z) : Z :=
  match ssh_parameters (kernel_client s) with
  | Some _ => random_port env
  | None => advertised
  end.

(** The comm table after the channel [ch] has been assigned to the comms
    [ids]. *)
Definition rebind (ids : list string) (ch : option Channel)
    (m : gmap string Comm) : gmap string Comm :=
  foldl (fun acc i => <[i := mkComm ch]> acc) m ids.

(** The ids [get_comm_id_list] gives on the object [s]. *)
Definition matched (comm_id : option string) (s : KernelComm) : list string :=
  match comm_id with
  | None => map fst (map_to_list (_comms s))
  | Some c => [c]
  end.

Definition registered (ids : list string) (s : KernelComm) : Prop :=
  forall i, i ∈ ids -> is_Some (_comms s !! i).

(** Whether the kernel dies during the events. *)
Definition is_kernel_dies (ev : qt_event) : bool :=
  match ev with KernelDies => true | _ => false end.
Definition kernel_dies_in (events : list qt_event) : bool :=
  existsb is_kernel_dies events.

(** An event that is neither a reply for the call [call_id] nor the
    expiry of the timer (the kernel may die). *)
Definition no_reply_no_timer (call_id : string) (ev : qt_event) : Prop :=
  match ev with
  | ReplyArrives c _ => c <> call_id
  | KernelDies => True
  | TimerFires => False
  end.

(** The object [s] during a wait for [call_id] that started on [s0]: no
    reply yet, the [quit] slot of the loop connected to both signals, and
    the waitlist entry of the call as it was. *)
Definition waiting (loop : nat) (call_id : string) (s0 s : KernelComm) : Prop :=
  got_reply call_id s = false /\
  LoopQuit loop ∈ connections SigGotReply s /\
  LoopQuit loop ∈ connections SigKernelDied s /\
  _reply_waitlist s !! call_id = _reply_waitlist s0 !! call_id.

(** Time in the event loop.  [happenings] are the events that do not come
    from the timer, each with the time, in ms after [wait_timeout.start],
    at which the event loop handles it, in the order of these times.  A
    single-shot [QTimer] started with [interval] ms expires once, when
    [interval] ms have passed.  [due p happenings] are the events whose
    time satisfies [p], and [qt_delivered interval now happenings] is what
    the event loop has delivered when [now] ms have passed (the expiry
    first, if other events are due at the same time). *)
Definition due (p : Z -> bool) (happenings : list (Z * qt_event)) : list qt_event :=
  map snd (List.filter (fun h => p (fst h)) happenings).

Definition qt_delivered (interval now : Z) (happenings : list (Z * qt_event))
    : list qt_event :=
  if now <? interval then due (fun t => t <=? now) happenings
  else due (fun t => t <? interval) happenings ++
       TimerFires :: due (fun t => (interval <=? t) && (t <=? now)) happenings.

(** The [logger.debug] and [logger.info] calls of the dispatcher. *)
Definition log_interrupt_dropped (c : CallDict) : event :=
  EvLog Debug "Dropping interrupt because comm is disconnected: " (Some c) [].
Definition log_kernel_dead (c : CallDict) : event :=
  EvLog Info "Dropping message because kernel is dead: " None [StrCall c].
Definition log_exception (e : exn) (c : CallDict) : event :=
  EvLog Info "Dropping message because of exception: " None [StrExn e; StrCall c].

(** ** Notions used in the further properties *)

Definition is_tunnel (e : event) : bool :=
  match e with EvSshTunnel _ _ _ _ _ _ _ _ => true | _ => false end.

(** The comm channel, when there is one, is the channel for socket type
    [comm] connected to the client's [comm_port] with the session
    identity. *)
Definition channel_consistent (s : KernelComm) : Prop :=
  forall ch, comm_channel (kernel_client s) = Some ch ->
    exists p, comm_port (kernel_client s) = Some p /\
              ch = mkChannel "comm" p (bsession (kernel_client s)).

(** The object with the comm channel set to [None]. *)
Definition disconnected (s : KernelComm) : KernelComm :=
  set_kernel_client (set_comm_channel None (kernel_client s)) s.

(** [ids] lists the registered comms of [s], each once, in some order:
    the order of registration, which is the program's, is one of them. *)
Definition enumerates (ids : list string) (s : KernelComm) : Prop :=
  NoDup ids /\ forall i, i ∈ ids <-> is_Some (_comms s !! i).

(** The messages [shutdown_comm_channel] sends on the object [s], in the
    order in which [get_comm_id_list] lists the comms. *)
Definition shutdown_requests (s : KernelComm) : list event :=
  match comm_channel (kernel_client s) with
  | Some ch => map (EvChannelSend ch "shutdown_request") (matched None s)
  | None => []
  end.

(** [quit] of the loop is connected to neither signal of a wait for a
    reply: the loop is a new object. *)
Definition fresh_loop (loop : nat) (s : KernelComm) : Prop :=
  (LoopQuit loop ∉ _sig_got_reply s) /\ (LoopQuit loop ∉ kernel_died (kernel_client s)).

(** [quit] of the loop has been connected to both signals of [s0]. *)
Definition subscribed (loop : nat) (s0 s : KernelComm) : Prop :=
  _sig_got_reply s = _sig_got_reply s0 ++ [LoopQuit loop] /\
  kernel_died (kernel_client s) = kernel_died (kernel_client s0) ++ [LoopQuit loop].

(** Both signals have the connections they have in [s0]. *)
Definition unsubscribed (s0 s : KernelComm) : Prop :=
  _sig_got_reply s = _sig_got_reply s0 /\
  kernel_died (kernel_client s) = kernel_died (kernel_client s0).

(** What a wait for the reply to [call_id], started on [s0] with the
    given events, has reached when it gives [r] on the object [s]. *)
Definition wait_post (call_id : string) (msg : message) (loop : nat)
    (events : list qt_event) (s0 : KernelComm) (r : Result wait_status)
    (s : KernelComm) : Prop :=
  match r with
  | Ok StillWaiting => (TimerFires ∉ events) /\ subscribed loop s0 s
  | Ok Returned => got_reply call_id s = true /\ unsubscribed s0 s
  | Raise e =>
      unsubscribed s0 s /\
      ((e = RuntimeError "Kernel is dead" /\ alive (kernel_client s) = false) \/
       (e = TimeoutError msg /\ alive (kernel_client s) = true /\
        got_reply call_id s = false /\ TimerFires ∈ events))
  end.

(** * Properties *)

(** ** Port advertisement: [_set_comm_port] *)

Ltac py_unfold :=
  unfold run, _set_comm_port, ssh_tunnel, _create_connected_socket,
    shell_channel_class, send_comm_config, comm_channel_connected, emit,
    modify_client, modify, tell, get, bind, ret, raise in *.

Lemma set_comm_port_absent env w : _set_comm_port env None w = (Ok tt, w).
Proof. reflexivity. Qed.

Lemma set_comm_port_unchanged env w p :
  remote_comm_port (self w) = Some p ->
  _set_comm_port env (Some p) w = (Ok tt, w).
Proof.
  intros Hp. py_unfold. simpl. rewrite Hp.
  rewrite bool_decide_eq_true_2 by reflexivity. reflexivity.
Qed.

(** After any call with a present port, that port is the recorded one. *)
Lemma set_comm_port_records env w p r w' :
  _set_comm_port env (Some p) w = (r, w') ->
  remote_comm_port (self w') = Some p.
Proof.
  py_unfold. simpl. case_bool_decide as Heq.
  - intros [= <- <-]. symmetry. exact Heq.
  - destruct (ssh_parameters (kernel_client (self w))) as [[[h k] pw]|]; simpl;
      [destruct (tunnel_failure env); simpl|];
      repeat (case_bool_decide; simpl); intros [= <- <-]; reflexivity.
Qed.

(** A call constructs a channel as often as it emits the signal, and at
    most once. *)
Lemma set_comm_port_counts env s port r w :
  run (_set_comm_port env port) s = (r, w) ->
  count is_new_channel (trace w) = count is_port_changed (trace w) /\
  (count is_new_channel (trace w) <= 1)%nat.
Proof.
  destruct port as [p|]; [|intros [= <- <-]; simpl; auto].
  py_unfold. simpl. case_bool_decide as Heq; [intros [= <- <-]; simpl; auto|].
  destruct (ssh_parameters (kernel_client s)) as [[[h k] pw]|]; simpl;
    [destruct (tunnel_failure env); simpl|];
    repeat (case_bool_decide; simpl); intros [= <- <-]; simpl; auto.
Qed.

(** The call that installs a channel. *)
Lemma set_comm_port_installs env s p :
  remote_comm_port s <> Some p ->
  tunnel_failure env = None ->
  comm_port (kernel_client s) <> Some (resolved_port env s p) ->
  exists w,
    run (_set_comm_port env (Some p)) s = (Ok tt, w) /\
    remote_comm_port (self w) = Some p /\
    comm_port (kernel_client (self w)) = Some (resolved_port env s p) /\
    comm_channel (kernel_client (self w)) =
      Some (mkChannel "comm" (resolved_port env s p) (bsession (kernel_client s))) /\
    count is_new_channel (trace w) = 1%nat /\
    count is_port_changed (trace w) = 1%nat /\
    last (trace w) = Some (EvEmit SigCommPortChanged).
Proof.
  intros Hrec Htun Hport. unfold resolved_port in *.
  py_unfold. simpl.
  rewrite bool_decide_eq_false_2 by congruence.
  destruct (ssh_parameters (kernel_client s)) as [[[h k] pw]|]; simpl.
  - rewrite Htun. simpl. rewrite bool_decide_eq_false_2 by assumption. simpl.
    eexists. split; [reflexivity|]. simpl. repeat split; reflexivity.
  - rewrite bool_decide_eq_false_2 by assumption. simpl.
    eexists. split; [reflexivity|]. simpl. repeat split; reflexivity.
Qed.

(** C1 (as amended).  A call of [_set_comm_port] with a present port that
    differs from the recorded advertised port ([remote_comm_port]) and
    whose tunnel, if one is needed, succeeds: when the resolved port is not
    the client's [comm_port] (or the client has none yet), a channel for
    socket type [comm], connected to the resolved port with the session
    identity, is constructed and becomes the client's [comm_channel], and
    [_sig_comm_port_changed] is emitted once, as the last action.  A port
    equal to the recorded one changes nothing and emits nothing, whether
    or not a comm channel is installed. *)
Theorem C1_new_port_installs_channel env s p :
  (remote_comm_port s <> Some p ->
   tunnel_failure env = None ->
   comm_port (kernel_client s) <> Some (resolved_port env s p) ->
   exists w,
     run (_set_comm_port env (Some p)) s = (Ok tt, w) /\
     remote_comm_port (self w) = Some p /\
     comm_port (kernel_client (self w)) = Some (resolved_port env s p) /\
     comm_channel (kernel_client (self w)) =
       Some (mkChannel "comm" (resolved_port env s p) (bsession (kernel_client s))) /\
     count is_new_channel (trace w) = 1%nat /\
     count is_port_changed (trace w) = 1%nat /\
     last (trace w) = Some (EvEmit SigCommPortChanged)) /\
  (remote_comm_port s = Some p ->
   run (_set_comm_port env (Some p)) s = (Ok tt, mkWorld s [])).
Proof.
  split.
  - apply set_comm_port_installs.
  - intros Hp. apply set_comm_port_unchanged. exact Hp.
Qed.

(** C1 on the local kernel: port 5555 is advertised for the first time,
    and then once more. *)
Lemma C1_witness :
  remote_comm_port Fixture.kc_open <> Some 5555 /\
  tunnel_failure Fixture.env_ok = None /\
  comm_port (kernel_client Fixture.kc_open) <> Some 5555 /\
  (exists w,
     run (_set_comm_port Fixture.env_ok (Some 5555)) Fixture.kc_open = (Ok tt, w) /\
     remote_comm_port (self w) = Some 5555 /\
     comm_port (kernel_client (self w)) = Some 5555 /\
     comm_channel (kernel_client (self w)) = Some Fixture.comm5555 /\
     count is_new_channel (trace w) = 1%nat /\
     count is_port_changed (trace w) = 1%nat /\
     last (trace w) = Some (EvEmit SigCommPortChanged)) /\
  remote_comm_port Fixture.kc_installed = Some 5555 /\
  run (_set_comm_port Fixture.env_ok (Some 5555)) Fixture.kc_installed
  = (Ok tt, mkWorld Fixture.kc_installed []).
Proof.
  assert (H1 : remote_comm_port Fixture.kc_open <> Some 5555) by (vm_compute; discriminate).
  assert (H2 : tunnel_failure Fixture.env_ok = None) by reflexivity.
  assert (H3 : comm_port (kernel_client Fixture.kc_open) <> Some 5555)
    by (vm_compute; discriminate).
  assert (H4 : remote_comm_port Fixture.kc_installed = Some 5555) by reflexivity.
  split; [exact H1|]. split; [exact H2|]. split; [exact H3|]. split; [|split].
  - exact (proj1 (C1_new_port_installs_channel Fixture.env_ok Fixture.kc_open 5555)
             H1 H2 H3).
  - exact H4.
  - exact (proj2 (C1_new_port_installs_channel Fixture.env_ok Fixture.kc_installed 5555)
             H4).
Defined.

(** C1 as stated fails.  After the comm channel has been shut down, no
    comm channel exists, yet advertising the recorded port 5555 again
    constructs nothing and emits nothing.  And on a second [KernelComm]
    opened on a client whose [comm_port] is already 5555, no comm channel
    exists and port 5555 is new to the object, yet none is constructed. *)
Lemma C1_counterexample :
  (comm_channel (kernel_client Fixture.kc_shutdown) = None /\
   run (_set_comm_port Fixture.env_ok (Some 5555)) Fixture.kc_shutdown
   = (Ok tt, mkWorld Fixture.kc_shutdown [])) /\
  (comm_channel (kernel_client Fixture.kc_second) = None /\
   remote_comm_port Fixture.kc_second = None /\
   run (_set_comm_port Fixture.env_ok (Some 5555)) Fixture.kc_second
   = (Ok tt, mkWorld (set_remote_comm_port (Some 5555) Fixture.kc_second) [])).
Proof. vm_compute. repeat split. Qed.

(** C7 (as amended).  An absent port, or a port equal to the recorded
    one, constructs no channel and emits nothing.  When the same port is
    advertised twice in a row, the second call does nothing at all, so
    that the two calls together construct at most one channel and emit the
    signal as often; they construct exactly one and emit exactly once when
    the first call installs a channel: the port is not the recorded one,
    the tunnel (if any) succeeds and the resolved port is not the client's
    [comm_port]. *)
Theorem C7_port_advertisement_idempotent env1 env2 s p :
  run (_set_comm_port env1 None) s = (Ok tt, mkWorld s []) /\
  (remote_comm_port s = Some p ->
   run (_set_comm_port env1 (Some p)) s = (Ok tt, mkWorld s [])) /\
  (forall r w,
     run (_set_comm_port env1 (Some p)) s = (r, w) ->
     _set_comm_port env2 (Some p) w = (Ok tt, w) /\
     count is_new_channel (trace w) = count is_port_changed (trace w) /\
     (count is_new_channel (trace w) <= 1)%nat) /\
  (remote_comm_port s <> Some p ->
   tunnel_failure env1 = None ->
   comm_port (kernel_client s) <> Some (resolved_port env1 s p) ->
   exists w,
     run (_set_comm_port env1 (Some p)) s = (Ok tt, w) /\
     _set_comm_port env2 (Some p) w = (Ok tt, w) /\
     count is_new_channel (trace w) = 1%nat /\
     count is_port_changed (trace w) = 1%nat).
Proof.
  split; [reflexivity|]. split.
  { intros Hp. apply set_comm_port_unchanged. exact Hp. }
  split.
  { intros r w Hrun. split.
    - apply set_comm_port_unchanged.
      apply (set_comm_port_records env1 (mkWorld s []) p r w). exact Hrun.
    - apply (set_comm_port_counts env1 s (Some p) r w). exact Hrun. }
  intros Hrec Htun Hport.
  destruct (set_comm_port_installs env1 s p Hrec Htun Hport)
    as (w & Hrun & Hp & _ & _ & Hnew & Hsig & _).
  exists w. repeat split; try assumption.
  apply set_comm_port_unchanged. exact Hp.
Qed.

(** C7 on the local kernel: port 5555 advertised twice from the start,
    and advertised again once it is recorded. *)
Lemma C7_witness :
  (exists w,
     run (_set_comm_port Fixture.env_ok (Some 5555)) Fixture.kc_open = (Ok tt, w) /\
     _set_comm_port Fixture.env_ok (Some 5555) w = (Ok tt, w) /\
     count is_new_channel (trace w) = 1%nat /\
     count is_port_changed (trace w) = 1%nat) /\
  (let w := snd (run (_set_comm_port Fixture.env_ok (Some 5555)) Fixture.kc_open) in
   _set_comm_port Fixture.env_ok (Some 5555) w = (Ok tt, w) /\
   count is_new_channel (trace w) = count is_port_changed (trace w) /\
   (count is_new_channel (trace w) <= 1)%nat) /\
  run (_set_comm_port Fixture.env_ok (Some 5555)) Fixture.kc_installed
  = (Ok tt, mkWorld Fixture.kc_installed []).
Proof.
  assert (H1 : remote_comm_port Fixture.kc_open <> Some 5555) by (vm_compute; discriminate).
  assert (H2 : tunnel_failure Fixture.env_ok = None) by reflexivity.
  assert (H3 : comm_port (kernel_client Fixture.kc_open) <> Some 5555)
    by (vm_compute; discriminate).
  assert (H4 : remote_comm_port Fixture.kc_installed = Some 5555) by reflexivity.
  split; [|split].
  - exact (proj2 (proj2 (proj2
             (C7_port_advertisement_idempotent Fixture.env_ok Fixture.env_ok
                Fixture.kc_open 5555))) H1 H2 H3).
  - intro w.
    apply (proj1 (proj2 (proj2
             (C7_port_advertisement_idempotent Fixture.env_ok Fixture.env_ok
                Fixture.kc_open 5555)))
             (fst (run (_set_comm_port Fixture.env_ok (Some 5555)) Fixture.kc_open)) w).
    subst w. apply surjective_pairing.
  - exact (proj1 (proj2
             (C7_port_advertisement_idempotent Fixture.env_ok Fixture.env_ok
                Fixture.kc_installed 5555)) H4).
Defined.

(** C7 as stated fails.  On the remote kernel with the tunnel down, port
    6000 advertised twice constructs no channel and emits nothing, the
    second time even with the tunnel up.  On the second [KernelComm] of a
    client already on port 5555, port 5555 advertised twice constructs no
    channel either. *)
Lemma C7_counterexample :
  (let w1 := snd (run (_set_comm_port Fixture.env_tunnel_down (Some 6000)) Fixture.kc_remote) in
   let w2 := snd (_set_comm_port Fixture.env_ok (Some 6000) w1) in
   count is_new_channel (trace w2) = 0%nat /\
   count is_port_changed (trace w2) = 0%nat) /\
  (let w1 := snd (run (_set_comm_port Fixture.env_ok (Some 5555)) Fixture.kc_second) in
   let w2 := snd (_set_comm_port Fixture.env_ok (Some 5555) w1) in
   count is_new_channel (trace w2) = 0%nat /\
   count is_port_changed (trace w2) = 0%nat).
Proof. vm_compute. repeat split. Qed.

(** C10.  On a remote (tunnelled) connection, when a new port is
    advertised and the ssh tunnel fails, the call fails with the tunnel's
    exception after [remote_comm_port] has been set to the new port; the
    client is as before (no channel installed) and nothing is
    constructed.  A later advertisement of the same port, whatever the
    tunnel would do then, is a no-op: the tunnel is not tried again. *)
Theorem C10_failed_tunnel_is_not_retried env env' s p params e :
  ssh_parameters (kernel_client s) = Some params ->
  remote_comm_port s <> Some p ->
  tunnel_failure env = Some e ->
  exists w,
    run (_set_comm_port env (Some p)) s = (Raise e, w) /\
    remote_comm_port (self w) = Some p /\
    kernel_client (self w) = kernel_client s /\
    count is_new_channel (trace w) = 0%nat /\
    count is_port_changed (trace w) = 0%nat /\
    _set_comm_port env' (Some p) w = (Ok tt, w).
Proof.
  intros Hssh Hrec Htun.
  destruct params as [[h k] pw].
  eexists. split.
  { py_unfold. simpl. rewrite bool_decide_eq_false_2 by congruence.
    rewrite Hssh. simpl. rewrite Htun. simpl. reflexivity. }
  simpl. repeat split; try reflexivity.
  apply set_comm_port_unchanged. reflexivity.
Qed.

(** C10 on the remote kernel with the tunnel down, for port 6000. *)
Lemma C10_witness :
  ssh_parameters (kernel_client Fixture.kc_remote) = Some ("gateway", "id_rsa", "secret") /\
  remote_comm_port Fixture.kc_remote <> Some 6000 /\
  exists w,
    run (_set_comm_port Fixture.env_tunnel_down (Some 6000)) Fixture.kc_remote
    = (Raise (RuntimeError "tunnel '%s' failed to start"), w) /\
    remote_comm_port (self w) = Some 6000 /\
    kernel_client (self w) = kernel_client Fixture.kc_remote /\
    count is_new_channel (trace w) = 0%nat /\
    count is_port_changed (trace w) = 0%nat /\
    _set_comm_port Fixture.env_ok (Some 6000) w = (Ok tt, w).
Proof.
  assert (H1 : ssh_parameters (kernel_client Fixture.kc_remote)
               = Some ("gateway", "id_rsa", "secret")) by reflexivity.
  assert (H2 : remote_comm_port Fixture.kc_remote <> Some 6000)
    by (vm_compute; discriminate).
  split; [exact H1|]. split; [exact H2|].
  exact (C10_failed_tunnel_is_not_retried Fixture.env_tunnel_down Fixture.env_ok
           Fixture.kc_remote 6000 _ _ H1 H2 eq_refl).
Defined.

(** ** Scoped routing: [comm_channel_manager] *)

Lemma world_eta w : mkWorld (self w) (trace w) = w.
Proof. destruct w; reflexivity. Qed.

Lemma set_comms_id s : set_comms (_comms s) s = s.
Proof. destruct s; reflexivity. Qed.

Lemma rebind_lookup ids ch (m : gmap string Comm) i :
  rebind ids ch m !! i = if decide (i ∈ ids) then Some (mkComm ch) else m !! i.
Proof.
  unfold rebind. revert m. induction ids as [|a ids IH]; intros m; cbn [foldl].
  - case_decide as Hin; [|reflexivity]. apply elem_of_nil in Hin. contradiction.
  - rewrite IH. destruct (decide (i ∈ ids)) as [Hin|Hnin].
    + rewrite decide_True; [reflexivity | apply list_elem_of_further, Hin].
    + destruct (decide (i = a)) as [->|Hne].
      * rewrite decide_True by apply list_elem_of_here.
        apply lookup_insert_eq.
      * rewrite decide_False.
        -- apply lookup_insert_ne. congruence.
        -- intros Hin. apply elem_of_cons in Hin as [?|?]; contradiction.
Qed.

(** The assignment loop on registered comms: it does not fail and
    assigns the channel to each of them. *)
Lemma for_each_assign_ok (f : KernelClient -> option Channel) ids w :
  registered ids (self w) ->
  for_each ids (assign_send_channel f) w =
    (Ok tt, mkWorld (set_comms (rebind ids (f (kernel_client (self w))) (_comms (self w)))
                               (self w))
                    (trace w)).
Proof.
  revert w. induction ids as [|a ids IH]; intros w Hreg.
  - simpl. unfold ret, rebind. simpl. rewrite set_comms_id, world_eta. reflexivity.
  - simpl. unfold bind at 1. unfold assign_send_channel at 1. py_unfold. simpl.
    destruct (Hreg a (list_elem_of_here a ids)) as [c Hc]. rewrite Hc.
    rewrite IH.
    + reflexivity.
    + intros i Hi. simpl.
      destruct (decide (i = a)) as [->|Hne].
      * rewrite lookup_insert_eq. eauto.
      * rewrite lookup_insert_ne by congruence.
        apply Hreg, list_elem_of_further, Hi.
Qed.

(** In general the loop ends normally or with a [KeyError]; it adds
    nothing to the trace. *)
Lemma for_each_assign_result (f : KernelClient -> option Channel) ids w :
  exists w',
    trace w' = trace w /\
    (for_each ids (assign_send_channel f) w = (Ok tt, w') \/
     exists k, for_each ids (assign_send_channel f) w = (Raise (KeyError k), w')).
Proof.
  revert w. induction ids as [|a ids IH]; intros w.
  - exists w. split; [reflexivity|]. left. reflexivity.
  - destruct (_comms (self w) !! a) as [c|] eqn:Hc.
    + pose (w1 := mkWorld (set_comms (<[a := mkComm (f (kernel_client (self w)))]>
                                        (_comms (self w))) (self w)) (trace w)).
      assert (Hstep : for_each (a :: ids) (assign_send_channel f) w
                      = for_each ids (assign_send_channel f) w1).
      { simpl. unfold bind, assign_send_channel. py_unfold. simpl.
        rewrite Hc. reflexivity. }
      rewrite Hstep. destruct (IH w1) as (w' & Ht & Hr).
      exists w'. split; [exact Ht | exact Hr].
    + exists w. split; [reflexivity|]. right. exists a.
      simpl. unfold bind, assign_send_channel. py_unfold. simpl.
      rewrite Hc. reflexivity.
Qed.

Lemma comm_channel_manager_queued {A} (body : Py A) comm_id w :
  comm_channel_manager comm_id true body w = body w.
Proof. reflexivity. Qed.

(** With the comm channel connected and the matched comms registered,
    the body runs after the rebinding, inside [try ... finally]. *)
Lemma comm_channel_manager_priority {A} (body : Py A) comm_id w pri :
  comm_channel (kernel_client (self w)) = Some pri ->
  registered (matched comm_id (self w)) (self w) ->
  comm_channel_manager comm_id false body w =
    try_finally body
      (for_each (matched comm_id (self w))
                (assign_send_channel (fun c => Some (shell_channel c))))
      (mkWorld (set_comms (rebind (matched comm_id (self w)) (Some pri) (_comms (self w)))
                          (self w))
               (trace w)).
Proof.
  intros Hpri Hreg.
  unfold comm_channel_manager, comm_channel_connected, get_comm_id_list.
  unfold bind, get, ret. simpl. rewrite Hpri. simpl.
  try rewrite bool_decide_eq_true_2 by discriminate. simpl.
  destruct comm_id as [c|]; cbn [matched] in *; cbv beta iota;
    rewrite for_each_assign_ok by exact Hreg; rewrite Hpri; reflexivity.
Qed.

(** The [finally] part on registered comms. *)
Lemma try_finally_restore {A} (body : Py A) ids w r w1 :
  body w = (r, w1) ->
  registered ids (self w1) ->
  try_finally body
    (for_each ids (assign_send_channel (fun c => Some (shell_channel c)))) w =
  (r, mkWorld (set_comms (rebind ids (Some (shell_channel (kernel_client (self w1))))
                                 (_comms (self w1)))
                         (self w1))
              (trace w1)).
Proof.
  intros Hbody Hreg. unfold try_finally. rewrite Hbody.
  rewrite for_each_assign_ok by exact Hreg. reflexivity.
Qed.

(** Every registered comm is matched by [None]. *)
Lemma matched_all_registered s : registered (matched None s) s.
Proof.
  intros i Hi. simpl in Hi.
  apply list_elem_of_fmap in Hi as ([k c] & -> & Hkc).
  apply elem_of_map_to_list in Hkc. simpl. eauto.
Qed.

(** The context manager when the body leaves the matched comms
    registered.  With [queue_message] true it is the body alone: it
    changes no comm.  With [queue_message] false and the comm channel
    connected, every registered comm matched by the comm id sends on the
    comm channel when the body starts, and whether the body returns or
    raises the manager ends as the body did, with each of those comms
    sending on the shell channel, and with the other comms, the client and
    the trace as the body left them. *)
Lemma comm_channel_manager_scoped {A} (body : Py A) comm_id s :
  run (comm_channel_manager comm_id true body) s = run body s /\
  forall pri r w1,
    comm_channel (kernel_client s) = Some pri ->
    registered (matched comm_id s) s ->
    let ids := matched comm_id s in
    let entry := set_comms (rebind ids (Some pri) (_comms s)) s in
    body (mkWorld entry []) = (r, w1) ->
    registered ids (self w1) ->
    let restored :=
      rebind ids (Some (shell_channel (kernel_client (self w1)))) (_comms (self w1)) in
    (forall i, _comms entry !! i =
               if decide (i ∈ ids) then Some (mkComm (Some pri)) else _comms s !! i) /\
    run (comm_channel_manager comm_id false body) s =
      (r, mkWorld (set_comms restored (self w1)) (trace w1)) /\
    (forall i, restored !! i =
               if decide (i ∈ ids)
               then Some (mkComm (Some (shell_channel (kernel_client (self w1)))))
               else _comms (self w1) !! i).
Proof.
  split; [reflexivity|].
  intros pri r w1 Hpri Hreg ids entry Hbody Hreg1 restored. split; [|split].
  - intros i. subst entry. simpl. apply rebind_lookup.
  - unfold run.
    rewrite (comm_channel_manager_priority body comm_id (mkWorld s []) pri Hpri Hreg).
    simpl. apply try_finally_restore; [exact Hbody | exact Hreg1].
  - intros i. apply rebind_lookup.
Qed.

(** C6 (a defect of the code).  The [try ... finally] of the context
    manager is there to put the matched comms back on the shell channel on
    every exit, but its [finally] part looks the comms up again by the ids
    listed on entry.  The comms [c1] and [c2] are registered, in this
    order, and the comm channel is connected; the manager is entered for
    all comms, and the body unregisters [c1] (as [remove] does once the
    other side is down).  The body returns normally, yet the manager
    raises [KeyError] for [c1]; and the restore loop stops there, so that
    [c2] still sends on the comm channel after the scope.  When the body
    goes on to raise an exception of its own, the [KeyError] comes out in
    its place. *)
Theorem C6_restore_fails_after_removal :
  let s := Fixture.kc_two_comms in
  let pri := Fixture.comm5555 in
  let entry := set_comms (rebind ["c1"; "c2"] (Some pri) (_comms s)) s in
  let body : Py unit := remove (Some "c1") in
  let failing : Py unit := remove (Some "c1") ;; raise (RuntimeError "handler failed") in
  let out := run (comm_channel_manager None false body) s in
  (comm_channel (kernel_client s) = Some pri /\
   matched None s = ["c1"; "c2"] /\
   _comms s !! "c1" = Some (mkComm (Some Fixture.shell0)) /\
   _comms s !! "c2" = Some (mkComm (Some Fixture.shell0))) /\
  (fst (body (mkWorld entry [])) = Ok tt /\
   fst out = Raise (KeyError "c1") /\
   _comms (self (snd out)) !! "c1" = None /\
   _comms (self (snd out)) !! "c2" = Some (mkComm (Some pri))) /\
  (fst (failing (mkWorld entry [])) = Raise (RuntimeError "handler failed") /\
   fst (run (comm_channel_manager None false failing) s) = Raise (KeyError "c1")).
Proof. vm_compute. repeat split. Qed.

(** With the comm channel connected the manager either fails with a
    [KeyError] before the body, or runs the body and ends as the body did
    or with a [KeyError] of the [finally] part.  It logs nothing itself. *)
Lemma comm_channel_manager_connected {A} (body : Py A) comm_id w pri :
  comm_channel (kernel_client (self w)) = Some pri ->
  (exists k w', comm_channel_manager comm_id false body w = (Raise (KeyError k), w') /\
                trace w' = trace w) \/
  (exists w0 r w1 w2,
     trace w0 = trace w /\ body w0 = (r, w1) /\ trace w2 = trace w1 /\
     (comm_channel_manager comm_id false body w = (r, w2) \/
      exists k, comm_channel_manager comm_id false body w = (Raise (KeyError k), w2))).
Proof.
  intros Hpri.
  unfold comm_channel_manager, comm_channel_connected, get_comm_id_list.
  unfold bind, get, ret. simpl. rewrite Hpri. simpl.
  try rewrite bool_decide_eq_true_2 by discriminate. simpl.
  set (ids := matched comm_id (self w)).
  assert (Hids : forall B (k : list string -> Py B),
             (let (r, w') := match comm_id with
                             | Some c => fun w0 : World => (Ok [c], w0)
                             | None => fun w0 : World =>
                                 (Ok (map fst (map_to_list (_comms (self w)))), w0)
                             end w in
              match r with Ok a => k a w' | Raise e => (Raise e, w') end) = k ids w)
    by (intros B k; destruct comm_id; reflexivity).
  rewrite Hids. clear Hids.
  destruct (for_each_assign_result comm_channel ids w) as (w0 & Ht0 & [Hok | [k Hk]]).
  - rewrite Hok. right. unfold try_finally.
    destruct (body w0) as [r w1] eqn:Hbody.
    destruct (for_each_assign_result (fun c => Some (shell_channel c)) ids w1)
      as (w2 & Ht2 & [Hok2 | [k Hk]]).
    + exists w0, r, w1, w2. rewrite Hok2. auto.
    + exists w0, r, w1, w2. rewrite Hk. repeat split; auto. right. eauto.
  - rewrite Hk. left. eauto.
Qed.

(** ** Replies: [_set_call_return_value] *)

Lemma set_call_return_value_eq `{CommBase} call_dict data is_error w :
  _set_call_return_value call_dict data is_error w =
  comm_channel_manager (calling_comm_id (self w))
    (negb (bool_decide (comm_channel (kernel_client (self w)) <> None)))
    (call_base (fun s => EvBaseSetReturn call_dict is_error (_comms s))
               (super_set_call_return_value call_dict data is_error)) w.
Proof. reflexivity. Qed.

(** C5.  Sending a reply never asks for the comm configuration and never
    fails with the [CommError] of the context manager ("Comm not
    connected."), unless the base method itself raises it: the branch of
    the manager that raises it is not reached, because [queue_message] is
    [not comm_channel_connected()].  With the comm channel disconnected the
    reply is the base method's, run on the unchanged object (no comm is
    rebound: it goes out on the channel the comm is bound to). *)
Theorem C5_reply_never_channel_not_ready `{CommBase} call_dict data is_error s :
  let out := run (_set_call_return_value call_dict data is_error) s in
  count is_send_comm_config (trace (snd out)) = 0%nat /\
  ((forall s', fst (super_set_call_return_value call_dict data is_error s')
               <> Raise (CommError "Comm not connected.")) ->
   fst out <> Raise (CommError "Comm not connected.")) /\
  (comm_channel (kernel_client s) = None ->
   out = (fst (super_set_call_return_value call_dict data is_error s),
          mkWorld (snd (super_set_call_return_value call_dict data is_error s))
                  [EvBaseSetReturn call_dict is_error (_comms s)])).
Proof.
  intros out. subst out. unfold run.
  rewrite set_call_return_value_eq. cbn [self].
  destruct (comm_channel (kernel_client s)) as [pri|] eqn:Hpri.
  - rewrite bool_decide_eq_true_2 by discriminate. cbn [negb].
    set (body := call_base (fun s0 => EvBaseSetReturn call_dict is_error (_comms s0))
                           (super_set_call_return_value call_dict data is_error)).
    destruct (comm_channel_manager_connected body (calling_comm_id s)
                (mkWorld s []) pri Hpri)
      as [(k & w' & Hrun & Ht) | (w0 & r & w1 & w2 & Ht0 & Hbody & Ht2 & Hrun)].
    + rewrite Hrun. simpl in *. rewrite Ht. repeat split; [discriminate | discriminate].
    + assert (Hr : r = fst (super_set_call_return_value call_dict data is_error (self w0))
                   /\ trace w1 = [EvBaseSetReturn call_dict is_error (_comms (self w0))]).
      { subst body. unfold call_base in Hbody.
        destruct (super_set_call_return_value call_dict data is_error (self w0)).
        injection Hbody as <- <-. simpl in *. rewrite Ht0. auto. }
      destruct Hr as [Hr Htr].
      destruct Hrun as [Hrun | [k Hrun]]; rewrite Hrun; simpl; rewrite Ht2, Htr;
        (split; [reflexivity|]); (split; [|discriminate]).
      * intros Hbase. rewrite Hr. apply Hbase.
      * discriminate.
  - rewrite bool_decide_eq_false_2 by (intros Hne; apply Hne; reflexivity).
    unfold comm_channel_manager, call_base. simpl.
    destruct (super_set_call_return_value call_dict data is_error s) as [r s'] eqn:Hs.
    simpl. repeat split. intros Hbase. specialize (Hbase s). rewrite Hs in Hbase.
    exact Hbase.
Qed.

(** C5 on a comm whose comm channel is not connected. *)
Lemma C5_witness :
  let out := run (@_set_call_return_value Fixture.quiet_base Fixture.plain_call VNone false)
                 Fixture.kc_open in
  comm_channel (kernel_client Fixture.kc_open) = None /\
  fst out <> Raise (CommError "Comm not connected.") /\
  out = (Ok tt, mkWorld Fixture.kc_open
                  [EvBaseSetReturn Fixture.plain_call false (_comms Fixture.kc_open)]).
Proof.
  intros out.
  destruct (@C5_reply_never_channel_not_ready Fixture.quiet_base Fixture.plain_call
              VNone false Fixture.kc_open) as (_ & Hne & Hqueued).
  split; [reflexivity|]. split.
  - apply Hne. intros s'. simpl. discriminate.
  - apply Hqueued. reflexivity.
Defined.

(** ** Dispatch: [_get_call_return_value] *)

Arguments comm_channel_manager : simpl never.
Arguments try_except_RuntimeError : simpl never.

(** C8.  When the kernel is not alive, a blocking call fails with
    [RuntimeError("Kernel is dead")] and nothing else happens: no request,
    no routing, no call of the base method.  A non-blocking call returns
    [None] after exactly one log entry, the object unchanged: no base
    method is called, nothing is sent and nothing is raised. *)
Theorem C8_dead_kernel `{CommBase} call_dict call_data comm_id s :
  alive (kernel_client s) = false ->
  run (_get_call_return_value call_dict call_data comm_id) s =
    if setting "blocking" call_dict
    then (Raise (RuntimeError "Kernel is dead"), mkWorld s [])
    else (Ok VNone, mkWorld s [log_kernel_dead call_dict]).
Proof.
  intros Hdead. unfold run, _get_call_return_value.
  unfold bind, get, tell, raise, ret. simpl. rewrite Hdead. simpl.
  destruct (setting "blocking" call_dict); reflexivity.
Qed.

(** C8 for a blocking and for a plain call to the dead kernel. *)
Lemma C8_witness :
  alive (kernel_client Fixture.kc_dead) = false /\
  run (@_get_call_return_value Fixture.quiet_base Fixture.blocking_call VNone (Some "c1"))
      Fixture.kc_dead
  = (Raise (RuntimeError "Kernel is dead"), mkWorld Fixture.kc_dead []) /\
  run (@_get_call_return_value Fixture.quiet_base Fixture.plain_call VNone (Some "c1"))
      Fixture.kc_dead
  = (Ok VNone, mkWorld Fixture.kc_dead [log_kernel_dead Fixture.plain_call]).
Proof.
  assert (Hdead : alive (kernel_client Fixture.kc_dead) = false) by reflexivity.
  split; [exact Hdead|]. split.
  - exact (@C8_dead_kernel Fixture.quiet_base Fixture.blocking_call VNone (Some "c1")
             Fixture.kc_dead Hdead).
  - exact (@C8_dead_kernel Fixture.quiet_base Fixture.plain_call VNone (Some "c1")
             Fixture.kc_dead Hdead).
Defined.

(** The dispatcher on a live kernel: the interrupt is resolved, then the
    base method runs inside the context manager, guarded by [except
    RuntimeError]. *)
Lemma get_call_return_value_alive `{CommBase} call_dict call_data comm_id s :
  alive (kernel_client s) = true ->
  let blocking := setting "blocking" call_dict in
  let interrupt := setting "interrupt" call_dict || blocking in
  let connected := bool_decide (comm_channel (kernel_client s) <> None) in
  let dispatch (queued : bool) :=
    try_except_RuntimeError
      (comm_channel_manager comm_id queued
         (call_base (fun s => EvBaseGetCall call_dict comm_id (_comms s))
                    (super_get_call_return_value call_dict call_data comm_id)))
      (fun e =>
         if blocking then raise e
         else bind (tell (log_exception e call_dict)) (fun _ => ret VNone)) in
  run (_get_call_return_value call_dict call_data comm_id) s =
    if interrupt && negb connected then
      if blocking
      then (Raise (CommError "Cannot block on a disconnected comm"),
            mkWorld s [EvSendCommConfig; log_interrupt_dropped call_dict])
      else dispatch true (mkWorld s [EvSendCommConfig; log_interrupt_dropped call_dict])
    else dispatch (negb interrupt) (mkWorld s []).
Proof.
  intros Halive blocking interrupt connected dispatch.
  unfold run, _get_call_return_value.
  unfold bind at 1. unfold get at 1. cbn [self]. rewrite Halive. cbn [negb].
  unfold bind at 1. unfold comm_channel_connected, bind, get, ret. cbn [self].
  fold blocking. fold interrupt. fold connected.
  destruct (interrupt && negb connected) eqn:Hres.
  - unfold send_comm_config, tell, raise. cbn [self trace app].
    destruct blocking; reflexivity.
  - reflexivity.
Qed.

(** C3 (as amended).  On a live kernel, for a call whose settings ask for
    an interrupt or for blocking while the comm channel is not connected:
    exactly one request for the comm configuration is issued.  A blocking
    call then fails with [CommError] and the base method is not called.  A
    non-blocking call goes on in queued mode: the base method is called
    once, on the object as it was (no comm rebound), the object is left as
    the base method leaves it, and the outcome is the base method's, a
    [RuntimeError] being swallowed. *)
Theorem C3_interrupt_on_disconnected_channel `{CommBase} call_dict call_data comm_id s :
  alive (kernel_client s) = true ->
  comm_channel (kernel_client s) = None ->
  setting "interrupt" call_dict || setting "blocking" call_dict = true ->
  let out := run (_get_call_return_value call_dict call_data comm_id) s in
  let handled := super_get_call_return_value call_dict call_data comm_id s in
  count is_send_comm_config (trace (snd out)) = 1%nat /\
  if setting "blocking" call_dict
  then out = (Raise (CommError "Cannot block on a disconnected comm"),
              mkWorld s [EvSendCommConfig; log_interrupt_dropped call_dict])
  else self (snd out) = snd handled /\
       fst out = match fst handled with
                 | Raise e => if is_RuntimeError e then Ok VNone else Raise e
                 | Ok v => Ok v
                 end /\
       exists tl,
         trace (snd out) =
           [EvSendCommConfig; log_interrupt_dropped call_dict;
            EvBaseGetCall call_dict comm_id (_comms s)] ++ tl /\
         count is_base_call tl = 0%nat.
Proof.
  intros Halive Hnone Hint out handled. subst out.
  rewrite (get_call_return_value_alive call_dict call_data comm_id s Halive).
  cbv zeta. rewrite Hint, Hnone.
  rewrite bool_decide_eq_false_2 by (intros Hne; apply Hne; reflexivity).
  cbn [negb andb].
  destruct (setting "blocking" call_dict).
  - split; reflexivity.
  - unfold try_except_RuntimeError, comm_channel_manager, call_base. cbn [self trace].
    subst handled.
    destruct (super_get_call_return_value call_dict call_data comm_id s) as [[v|e] s'].
    + cbn. repeat split. exists []. split; reflexivity.
    + cbn. destruct (is_RuntimeError e); cbn.
      * repeat split. exists [log_exception e call_dict]. split; reflexivity.
      * repeat split. exists []. split; reflexivity.
Qed.

(** C3 for a blocking and for an interrupting call on a live kernel whose
    comm channel is not connected. *)
Lemma C3_witness :
  alive (kernel_client Fixture.kc_open) = true /\
  comm_channel (kernel_client Fixture.kc_open) = None /\
  (let out := run (@_get_call_return_value Fixture.quiet_base Fixture.blocking_call VNone
                     (Some "c1")) Fixture.kc_open in
   count is_send_comm_config (trace (snd out)) = 1%nat /\
   out = (Raise (CommError "Cannot block on a disconnected comm"),
          mkWorld Fixture.kc_open
            [EvSendCommConfig; log_interrupt_dropped Fixture.blocking_call])) /\
  (let out := run (@_get_call_return_value Fixture.quiet_base Fixture.interrupt_call VNone
                     (Some "c1")) Fixture.kc_open in
   count is_send_comm_config (trace (snd out)) = 1%nat /\
   fst out = Ok VNone /\
   self (snd out) = Fixture.kc_open).
Proof.
  assert (Ha : alive (kernel_client Fixture.kc_open) = true) by reflexivity.
  assert (Hn : comm_channel (kernel_client Fixture.kc_open) = None) by reflexivity.
  split; [exact Ha|]. split; [exact Hn|]. split.
  - exact (@C3_interrupt_on_disconnected_channel Fixture.quiet_base
             Fixture.blocking_call VNone (Some "c1") Fixture.kc_open Ha Hn eq_refl).
  - destruct (@C3_interrupt_on_disconnected_channel Fixture.quiet_base
                Fixture.interrupt_call VNone (Some "c1") Fixture.kc_open Ha Hn eq_refl)
      as (Hone & Hrest).
    cbv zeta. split; [exact Hone|].
    destruct Hrest as (Hself & Hfst & _). split; [exact Hfst | exact Hself].
Defined.

(** C3 as stated fails.  With the kernel dead and the comm channel not
    connected, a blocking call fails with [RuntimeError("Kernel is dead")],
    not with [CommError], and an interrupting call is dropped; in both
    cases no request for the comm configuration is issued. *)
Lemma C3_counterexample :
  comm_channel (kernel_client Fixture.kc_dead) = None /\
  (let out := run (@_get_call_return_value Fixture.quiet_base Fixture.blocking_call VNone
                     (Some "c1")) Fixture.kc_dead in
   setting "blocking" Fixture.blocking_call = true /\
   fst out = Raise (RuntimeError "Kernel is dead") /\
   count is_send_comm_config (trace (snd out)) = 0%nat) /\
  (let out := run (@_get_call_return_value Fixture.quiet_base Fixture.interrupt_call VNone
                     (Some "c1")) Fixture.kc_dead in
   setting "interrupt" Fixture.interrupt_call = true /\
   count is_send_comm_config (trace (snd out)) = 0%nat /\
   count is_base_call (trace (snd out)) = 0%nat).
Proof. vm_compute. repeat split. Qed.

(** C9 (as amended).  On a live kernel, a call that reaches the base
    method (the handler): a blocking call only with the comm channel
    connected, and a call routed over the comm channel only with the
    matched comms registered.  The handler fails with an exception [e],
    and when the call is routed over the comm channel it leaves the
    matched comms registered, so that the context manager exits without a
    failure of its own.  Then the whole run is known.  Before the handler
    the dispatcher does nothing, except for an interrupt it has to drop
    because the comm channel is not connected: one request for the comm
    configuration and one debug entry.  The handler is called once.  For
    a non-blocking call and [e] a [RuntimeError] (or a subclass) the
    failure is swallowed: the result is [None] and the last action is the
    one info entry for [e].  In all other cases, a blocking call or an
    exception of another class, [e] comes out of the dispatcher and
    nothing is logged for it.  The dispatcher sends no reply and no error,
    and the object is left as the handler left it, the matched comms of a
    call on the comm channel sending on the shell channel again. *)
Theorem C9_handler_failure `{CommBase} call_dict call_data comm_id s e s' :
  let blocking := setting "blocking" call_dict in
  let connected := bool_decide (comm_channel (kernel_client s) <> None) in
  let dropped := setting "interrupt" call_dict && negb connected in
  let priority := (setting "interrupt" call_dict || blocking) && connected in
  let ids := matched comm_id s in
  let entry :=
    if priority
    then set_comms (rebind ids (comm_channel (kernel_client s)) (_comms s)) s
    else s in
  let final :=
    if priority
    then set_comms (rebind ids (Some (shell_channel (kernel_client s'))) (_comms s')) s'
    else s' in
  let before :=
    if dropped then [EvSendCommConfig; log_interrupt_dropped call_dict] else [] in
  let called := EvBaseGetCall call_dict comm_id (_comms entry) in
  alive (kernel_client s) = true ->
  (blocking = true -> connected = true) ->
  (priority = true -> registered ids s /\ registered ids s') ->
  super_get_call_return_value call_dict call_data comm_id entry = (Raise e, s') ->
  run (_get_call_return_value call_dict call_data comm_id) s =
    if blocking || negb (is_RuntimeError e)
    then (Raise e, mkWorld final (before ++ [called]))
    else (Ok VNone, mkWorld final (before ++ [called; log_exception e call_dict])).
Proof.
  intros blocking connected dropped priority ids entry final before called
         Halive Hblock Hreg Hfail.
  rewrite (get_call_return_value_alive call_dict call_data comm_id s Halive).
  cbv zeta. fold blocking. fold connected.
  subst called before final dropped priority entry.
  destruct (comm_channel (kernel_client s)) as [pri|] eqn:Hpri.
  - (* connected *)
    assert (Hc : connected = true)
      by (subst connected; apply bool_decide_eq_true_2; discriminate).
    rewrite Hc in *. rewrite andb_true_r in *. cbn [negb]. rewrite !andb_false_r.
    destruct (setting "interrupt" call_dict || blocking) eqn:Hint.
    + (* on the comm channel *)
      destruct (Hreg eq_refl) as [Hreg0 Hreg1]. cbn [negb].
      unfold try_except_RuntimeError.
      rewrite (comm_channel_manager_priority _ comm_id (mkWorld s []) pri Hpri Hreg0).
      cbn [self trace]. fold ids.
      erewrite try_finally_restore; cycle 1.
      { unfold call_base. cbn [self trace]. fold ids. rewrite Hfail. reflexivity. }
      { exact Hreg1. }
      cbv beta iota.
      destruct (is_RuntimeError e); destruct blocking; reflexivity.
    + (* queued *)
      apply orb_false_iff in Hint as [Hi Hb]. rewrite Hb in *. cbn [negb].
      unfold try_except_RuntimeError, comm_channel_manager, call_base.
      cbn [self trace]. rewrite Hfail. cbv beta iota.
      destruct (is_RuntimeError e); reflexivity.
  - (* not connected *)
    assert (Hc : connected = false).
    { subst connected. apply bool_decide_eq_false_2. intros Hne. apply Hne. reflexivity. }
    rewrite Hc in *. rewrite andb_false_r in *. rewrite !andb_true_r. cbn [negb].
    destruct blocking eqn:Hb; [specialize (Hblock eq_refl); discriminate|].
    rewrite orb_false_r.
    destruct (setting "interrupt" call_dict) eqn:Hi; cbn [negb];
      unfold try_except_RuntimeError, comm_channel_manager, call_base;
      cbn [self trace]; rewrite Hfail; cbv beta iota;
      destruct (is_RuntimeError e); reflexivity.
Qed.

(** C9 for two calls whose handler raises a [RuntimeError]: an
    interrupting call on the connected comm channel, where the comm [c1]
    sends on the comm channel while the handler runs and on the shell
    channel afterwards, and a plain call. *)
Lemma C9_witness :
  let e := RuntimeError "boom" in
  let on_comm_channel :=
    set_comms (rebind ["c1"] (Some Fixture.comm5555) (_comms Fixture.kc_installed))
              Fixture.kc_installed in
  alive (kernel_client Fixture.kc_installed) = true /\
  registered ["c1"] Fixture.kc_installed /\
  run (@_get_call_return_value (Fixture.failing_base e) Fixture.interrupt_call VNone
         (Some "c1")) Fixture.kc_installed
  = (Ok VNone,
     mkWorld Fixture.kc_installed
       [EvBaseGetCall Fixture.interrupt_call (Some "c1") (_comms on_comm_channel);
        log_exception e Fixture.interrupt_call]) /\
  run (@_get_call_return_value (Fixture.failing_base e) Fixture.plain_call VNone
         (Some "c1")) Fixture.kc_installed
  = (Ok VNone,
     mkWorld Fixture.kc_installed
       [EvBaseGetCall Fixture.plain_call (Some "c1") (_comms Fixture.kc_installed);
        log_exception e Fixture.plain_call]).
Proof.
  intros e on_comm_channel.
  assert (Ha : alive (kernel_client Fixture.kc_installed) = true) by reflexivity.
  assert (Hr : registered ["c1"] Fixture.kc_installed).
  { intros i Hi. apply list_elem_of_singleton in Hi as ->. vm_compute. eauto. }
  assert (Hr' : registered ["c1"] on_comm_channel).
  { intros i Hi. apply list_elem_of_singleton in Hi as ->. vm_compute. eauto. }
  split; [exact Ha|]. split; [exact Hr|]. split.
  - exact (@C9_handler_failure (Fixture.failing_base e) Fixture.interrupt_call VNone
             (Some "c1") Fixture.kc_installed e on_comm_channel Ha
             (fun _ => eq_refl) (fun _ => conj Hr Hr') eq_refl).
  - refine (@C9_handler_failure (Fixture.failing_base e) Fixture.plain_call VNone
              (Some "c1") Fixture.kc_installed e Fixture.kc_installed Ha _ _ eq_refl).
    + intros Hb. vm_compute in Hb. discriminate.
    + intros Hp. vm_compute in Hp. discriminate.
Defined.

(** C9 as stated fails.  A non-blocking call whose handler fails with a
    [TypeError] (not a [RuntimeError]): the exception propagates out of the
    dispatcher and nothing is logged.  And a non-blocking interrupting call
    on a disconnected comm channel whose handler fails with a
    [RuntimeError]: the failure is swallowed, with two log entries. *)
Lemma C9_counterexample :
  (let out := run (@_get_call_return_value
                     (Fixture.failing_base (OtherError "TypeError" "cannot pickle"))
                     Fixture.plain_call VNone (Some "c1")) Fixture.kc_open in
   setting "blocking" Fixture.plain_call = false /\
   fst out = Raise (OtherError "TypeError" "cannot pickle") /\
   count is_log (trace (snd out)) = 0%nat) /\
  (let out := run (@_get_call_return_value (Fixture.failing_base (RuntimeError "boom"))
                     Fixture.interrupt_call VNone (Some "c1")) Fixture.kc_open in
   setting "blocking" Fixture.interrupt_call = false /\
   fst out = Ok VNone /\
   count is_log (trace (snd out)) = 2%nat).
Proof. vm_compute. repeat split. Qed.

(** ** The blocking wait: [_wait] and [_wait_reply] *)

(** The base handling of a reply for [c] touches the waitlist and the
    inbox at [c] only. *)
Lemma base_handle_remote_call_reply_frame c buffer w :
  exists w',
    base_handle_remote_call_reply c buffer w = (Ok tt, w') /\
    trace w' = trace w /\
    kernel_client (self w') = kernel_client (self w) /\
    _sig_got_reply (self w') = _sig_got_reply (self w) /\
    forall k, k <> c ->
      _reply_inbox (self w') !! k = _reply_inbox (self w) !! k /\
      _reply_waitlist (self w') !! k = _reply_waitlist (self w) !! k.
Proof.
  unfold base_handle_remote_call_reply, bind, get, modify, ret. cbn [self trace].
  destruct (_reply_waitlist (self w) !! c) as [[|]|].
  - eexists. split; [reflexivity|]. cbn.
    split; [reflexivity|]. split; [reflexivity|]. split; [reflexivity|].
    intros k Hk. split.
    + rewrite lookup_insert_ne by congruence. reflexivity.
    + rewrite lookup_delete_ne by congruence. reflexivity.
  - eexists. split; [reflexivity|]. cbn.
    split; [reflexivity|]. split; [reflexivity|]. split; [reflexivity|].
    intros k Hk. split; [reflexivity|].
    rewrite lookup_delete_ne by congruence. reflexivity.
  - exists w. split; [reflexivity|].
    split; [reflexivity|]. split; [reflexivity|]. split; [reflexivity|].
    intros k Hk. split; reflexivity.
Qed.

Lemma got_reply_lookup call_id s s' :
  _reply_inbox s' !! call_id = _reply_inbox s !! call_id ->
  got_reply call_id s' = got_reply call_id s.
Proof. unfold got_reply. intros ->. reflexivity. Qed.

(** While the call has no reply and the timer runs, the loop head
    enters [exec_] again. *)
Lemma wait_iteration_again call_id msg fr w :
  got_reply call_id (self w) = false ->
  timer_active fr = true ->
  wait_iteration (got_reply call_id) SigGotReply msg fr w = (Ok None, w).
Proof.
  intros Hcond Htimer. unfold wait_iteration, bind, get, ret. cbn [self].
  rewrite Hcond, Htimer. reflexivity.
Qed.

(** An event that is neither the awaited reply nor the timer is handled
    and [exec_] goes on, whether or not it calls [quit]. *)
Lemma exec_step call_id msg loop interval s0 ev rest w :
  let fr := mkFrame loop true interval [LoopQuit loop] in
  no_reply_no_timer call_id ev ->
  waiting loop call_id s0 (self w) ->
  exists w',
    waiting loop call_id s0 (self w') /\
    alive (kernel_client (self w')) =
      alive (kernel_client (self w)) && negb (is_kernel_dies ev) /\
    timer_started (trace w') = timer_started (trace w) /\
    exec_ (got_reply call_id) SigGotReply msg (ev :: rest) fr w =
    exec_ (got_reply call_id) SigGotReply msg rest fr w'.
Proof.
  intros fr Hev (Hcond & Hsig & Hdied & Hwl).
  destruct ev as [c buffer| |]; simpl in Hev; [| |contradiction].
  - (* a reply for another call *)
    destruct (base_handle_remote_call_reply_frame c buffer w)
      as (w1 & Hrun & Htr & Hkc & Hgr & Hother).
    destruct (Hother call_id (not_eq_sym Hev)) as [Hinbox Hwait].
    pose (w2 := mkWorld (self w1) (trace w1 ++ [EvEmit SigGotReply])).
    assert (Hw2 : waiting loop call_id s0 (self w2)).
    { subst w2. cbn [self]. repeat split.
      - rewrite (got_reply_lookup call_id (self w) (self w1) Hinbox). exact Hcond.
      - simpl. rewrite Hgr. exact Hsig.
      - simpl. rewrite Hkc. exact Hdied.
      - rewrite Hwait. exact Hwl. }
    exists w2. split; [exact Hw2|]. split.
    { subst w2. cbn [self is_kernel_dies negb]. rewrite Hkc, andb_true_r. reflexivity. }
    split.
    { subst w2. cbn [trace]. unfold timer_started. rewrite omap_app, Htr.
      apply app_nil_r. }
    cbn [exec_]. unfold bind at 1. unfold deliver, _handle_remote_call_reply.
    unfold bind at 1. unfold bind at 1. rewrite Hrun.
    unfold emit, bind, get, tell, ret. cbn [self trace fst snd].
    fold w2. cbn [connections wait_loop fr].
    rewrite bool_decide_eq_true_2 by (rewrite Hgr; exact Hsig).
    destruct Hw2 as (Hcond2 & _).
    rewrite (wait_iteration_again call_id msg fr w2 Hcond2 eq_refl). reflexivity.
  - (* the kernel dies *)
    pose (w2 := mkWorld (set_kernel_client (set_alive false (kernel_client (self w))) (self w))
                        (trace w ++ [EvEmit SigKernelDied])).
    assert (Hw2 : waiting loop call_id s0 (self w2)).
    { subst w2. cbn [self]. repeat split; assumption. }
    exists w2. split; [exact Hw2|]. split.
    { subst w2. cbn. rewrite andb_false_r. reflexivity. }
    split.
    { subst w2. cbn [trace]. unfold timer_started. rewrite omap_app. apply app_nil_r. }
    cbn [exec_]. unfold bind at 1. unfold deliver.
    unfold emit, modify_client, modify, bind, get, tell, ret. cbn [self trace fst snd].
    fold w2. cbn [connections wait_loop fr].
    rewrite bool_decide_eq_true_2 by exact Hdied.
    destruct Hw2 as (Hcond2 & _).
    rewrite (wait_iteration_again call_id msg fr w2 Hcond2 eq_refl). reflexivity.
Qed.

Lemma exec_skips call_id msg loop interval s0 pre rest w :
  let fr := mkFrame loop true interval [LoopQuit loop] in
  Forall (no_reply_no_timer call_id) pre ->
  waiting loop call_id s0 (self w) ->
  exists w',
    waiting loop call_id s0 (self w') /\
    alive (kernel_client (self w')) =
      alive (kernel_client (self w)) && negb (kernel_dies_in pre) /\
    timer_started (trace w') = timer_started (trace w) /\
    exec_ (got_reply call_id) SigGotReply msg (pre ++ rest) fr w =
    exec_ (got_reply call_id) SigGotReply msg rest fr w'.
Proof.
  intros fr Hpre. revert w.
  induction Hpre as [|ev pre Hev Hpre IH]; intros w Hw.
  - exists w. split; [exact Hw|]. split; [|split; reflexivity].
    cbn. rewrite andb_true_r. reflexivity.
  - destruct (exec_step call_id msg loop interval s0 ev (pre ++ rest) w Hev Hw)
      as (w1 & Hw1 & Halive1 & Htimer1 & Hstep).
    destruct (IH w1 Hw1) as (w2 & Hw2 & Halive2 & Htimer2 & Hrest).
    exists w2. split; [exact Hw2|]. split; [|split].
    + rewrite Halive2, Halive1. cbn [kernel_dies_in existsb].
      rewrite negb_orb, andb_assoc. reflexivity.
    + rewrite Htimer2. exact Htimer1.
    + change ((ev :: pre) ++ rest) with (ev :: (pre ++ rest)).
      fold fr in Hstep. rewrite Hstep. exact Hrest.
Qed.

(** When the timer fires during the wait, the method is left: the two
    signals are disconnected, and it raises [RuntimeError("Kernel is
    dead")] if the kernel is not alive and the [TimeoutError] otherwise. *)
Lemma exec_timer_fires call_id msg loop interval s0 post w :
  let fr := mkFrame loop true interval [LoopQuit loop] in
  waiting loop call_id s0 (self w) ->
  exists w',
    exec_ (got_reply call_id) SigGotReply msg (TimerFires :: post) fr w =
      (Raise (if alive (kernel_client (self w))
              then TimeoutError msg else RuntimeError "Kernel is dead"), w') /\
    trace w' = trace w /\
    (LoopQuit loop ∉ connections SigGotReply (self w')) /\
    (LoopQuit loop ∉ connections SigKernelDied (self w')) /\
    _reply_waitlist (self w') = _reply_waitlist (self w).
Proof.
  intros fr (Hcond & Hsig & Hdied & Hwl).
  cbn [exec_]. unfold bind at 1. unfold deliver, ret. cbn [timer_active fr fst snd wait_loop].
  rewrite bool_decide_eq_true_2 by apply list_elem_of_here.
  unfold wait_iteration, disconnect, bind, get, modify, ret, raise.
  cbn [self trace timer_active negb wait_loop].
  rewrite Hcond.
  rewrite bool_decide_eq_true_2 by exact Hsig.
  cbn [self trace connections set_connections set_sig_got_reply kernel_client].
  rewrite bool_decide_eq_true_2 by exact Hdied.
  cbn [self trace].
  assert (Hcond' : forall l1 l2,
             got_reply call_id
               (set_connections SigKernelDied l1 (set_connections SigGotReply l2 (self w)))
             = false) by (intros; exact Hcond).
  eexists. split.
  { cbn [connections set_connections set_sig_got_reply set_kernel_client kernel_client
         set_kernel_died kernel_died].
    unfold got_reply in *. cbn [_reply_inbox set_kernel_client set_sig_got_reply].
    rewrite Hcond. cbn [negb alive kernel_client set_kernel_client set_kernel_died].
    destruct (alive (kernel_client (self w))); reflexivity. }
  cbn. split; [reflexivity|]. split; [|split; [|reflexivity]].
  - intros Hin. apply list_elem_of_filter in Hin as [Hne _]. apply Hne. reflexivity.
  - intros Hin. apply list_elem_of_filter in Hin as [Hne _]. apply Hne. reflexivity.
Qed.

(** The start of [_wait_reply] on a live kernel, before any reply: the
    message is formatted from the waitlist, [quit] is connected to both
    signals, the timer is started and [exec_] is entered. *)
Lemma wait_reply_enters loop call_id call_name timeout events s :
  alive (kernel_client s) = true ->
  got_reply call_id s = false ->
  exists s1,
    waiting loop call_id s s1 /\
    alive (kernel_client s1) = true /\
    run (_wait_reply loop call_id call_name timeout events) s =
    exec_ (got_reply call_id) SigGotReply
          (MsgFormat "Timeout while waiting for {}" (_reply_waitlist s))
          events (mkFrame loop true (timeout * 1000) [LoopQuit loop])
          (mkWorld s1 [EvTimerStart (timeout * 1000)]).
Proof.
  intros Halive Hcond.
  exists (set_connections SigGotReply (_sig_got_reply s ++ [LoopQuit loop])
            (set_connections SigKernelDied
               (kernel_died (kernel_client s) ++ [LoopQuit loop]) s)).
  assert (Hin : forall l : list slot, LoopQuit loop ∈ l ++ [LoopQuit loop]).
  { intros l. apply elem_of_app. right. apply list_elem_of_here. }
  split; [|split].
  - repeat split; try apply Hin. exact Hcond.
  - exact Halive.
  - unfold run, _wait_reply, _wait, connect, bind, get, modify, tell, ret.
    cbn [self trace].
    rewrite Hcond, Halive. cbn [negb].
    cbn [connections set_connections self trace set_kernel_client kernel_client
         set_kernel_died _sig_got_reply timer_interval app].
    match goal with
    | |- context [wait_iteration ?c ?sg ?m ?fr ?w] =>
        rewrite (wait_iteration_again call_id m fr w Hcond eq_refl)
    end.
    reflexivity.
Qed.

(** The wait for a reply that does not come: whatever else happens, the
    kernel's death included, the method is still in [exec_] until the
    timer fires; then it raises, [RuntimeError("Kernel is dead")] if the
    kernel died meanwhile and [TimeoutError] otherwise, with [quit]
    disconnected from both signals. *)
Lemma wait_reply_without_reply loop call_id call_name timeout pre post s :
  alive (kernel_client s) = true ->
  got_reply call_id s = false ->
  Forall (no_reply_no_timer call_id) pre ->
  fst (run (_wait_reply loop call_id call_name timeout pre) s) = Ok StillWaiting /\
  exists w,
    run (_wait_reply loop call_id call_name timeout (pre ++ TimerFires :: post)) s =
      (Raise (if kernel_dies_in pre
              then RuntimeError "Kernel is dead"
              else TimeoutError
                     (MsgFormat "Timeout while waiting for {}" (_reply_waitlist s))),
       w) /\
    (LoopQuit loop ∉ connections SigGotReply (self w)) /\
    (LoopQuit loop ∉ connections SigKernelDied (self w)) /\
    _reply_waitlist (self w) !! call_id = _reply_waitlist s !! call_id.
Proof.
  intros Halive Hcond Hpre. split.
  - destruct (wait_reply_enters loop call_id call_name timeout pre s Halive Hcond)
      as (s1 & Hw1 & _ & ->).
    destruct (exec_skips call_id
                (MsgFormat "Timeout while waiting for {}" (_reply_waitlist s))
                loop (timeout * 1000) s pre [] (mkWorld s1 [EvTimerStart (timeout * 1000)])
                Hpre Hw1)
      as (w2 & _ & _ & _ & Hskip).
    rewrite app_nil_r in Hskip. rewrite Hskip. reflexivity.
  - destruct (wait_reply_enters loop call_id call_name timeout
                (pre ++ TimerFires :: post) s Halive Hcond)
      as (s1 & Hw1 & Halive1 & ->).
    destruct (exec_skips call_id
                (MsgFormat "Timeout while waiting for {}" (_reply_waitlist s))
                loop (timeout * 1000) s pre (TimerFires :: post)
                (mkWorld s1 [EvTimerStart (timeout * 1000)]) Hpre Hw1)
      as (w2 & Hw2 & Halive2 & _ & ->).
    destruct (exec_timer_fires call_id
                (MsgFormat "Timeout while waiting for {}" (_reply_waitlist s))
                loop (timeout * 1000) s post w2 Hw2)
      as (w3 & Hrun & _ & Hsig & Hdied & Hwl).
    exists w3. rewrite Hrun. cbn [self] in Halive2. rewrite Halive2, Halive1.
    cbn [andb]. split; [destruct (kernel_dies_in pre); reflexivity|].
    split; [exact Hsig|]. split; [exact Hdied|].
    rewrite Hwl. apply Hw2.
Qed.

(** C2 (a defect of the code).  The blocking call [a] waits; the kernel
    dies before any reply and before the timer fires.  The death wakes the
    loop, but the method goes back into [exec_]: it is still waiting,
    with [quit] still connected to both signals.  Only when the timer
    fires does it raise [RuntimeError("Kernel is dead")], with both
    signals disconnected. *)
Theorem C2_wait_outlives_kernel_death :
  let dies := run (_wait_reply 1 "a" "get_value" 2 [KernelDies]) Fixture.kc_waiting in
  let later := run (_wait_reply 1 "a" "get_value" 2 [KernelDies; TimerFires])
                   Fixture.kc_waiting in
  (fst dies = Ok StillWaiting /\
   alive (kernel_client (self (snd dies))) = false /\
   connections SigGotReply (self (snd dies)) = [LoopQuit 1] /\
   connections SigKernelDied (self (snd dies)) = [LoopQuit 1]) /\
  (fst later = Raise (RuntimeError "Kernel is dead") /\
   connections SigGotReply (self (snd later)) = [] /\
   connections SigKernelDied (self (snd later)) = []).
Proof. vm_compute. repeat split. Qed.

(** The same wait with the timer in view: it is started once, with
    [timeout * 1000] ms, and the method is still subscribed while it waits. *)
Lemma wait_reply_timer loop call_id call_name timeout pre s :
  alive (kernel_client s) = true ->
  got_reply call_id s = false ->
  Forall (no_reply_no_timer call_id) pre ->
  let msg := MsgFormat "Timeout while waiting for {}" (_reply_waitlist s) in
  (exists w,
     run (_wait_reply loop call_id call_name timeout pre) s = (Ok StillWaiting, w) /\
     timer_started (trace w) = [timeout * 1000] /\
     waiting loop call_id s (self w)) /\
  (forall post, exists w,
     run (_wait_reply loop call_id call_name timeout (pre ++ TimerFires :: post)) s =
       (Raise (if kernel_dies_in pre then RuntimeError "Kernel is dead"
               else TimeoutError msg), w) /\
     timer_started (trace w) = [timeout * 1000] /\
     (LoopQuit loop ∉ connections SigGotReply (self w)) /\
     (LoopQuit loop ∉ connections SigKernelDied (self w)) /\
     _reply_waitlist (self w) !! call_id = _reply_waitlist s !! call_id).
Proof.
  intros Halive Hcond Hpre msg. split.
  - destruct (wait_reply_enters loop call_id call_name timeout pre s Halive Hcond)
      as (s1 & Hw1 & _ & ->).
    destruct (exec_skips call_id msg loop (timeout * 1000) s pre []
                (mkWorld s1 [EvTimerStart (timeout * 1000)]) Hpre Hw1)
      as (w2 & Hw2 & _ & Htimer & Hskip).
    rewrite app_nil_r in Hskip. exists w2. fold msg. rewrite Hskip.
    split; [reflexivity|]. split; [exact Htimer | exact Hw2].
  - intros post.
    destruct (wait_reply_enters loop call_id call_name timeout
                (pre ++ TimerFires :: post) s Halive Hcond)
      as (s1 & Hw1 & Halive1 & ->).
    destruct (exec_skips call_id msg loop (timeout * 1000) s pre (TimerFires :: post)
                (mkWorld s1 [EvTimerStart (timeout * 1000)]) Hpre Hw1)
      as (w2 & Hw2 & Halive2 & Htimer & Hskip).
    fold msg. rewrite Hskip.
    destruct (exec_timer_fires call_id msg loop (timeout * 1000) s post w2 Hw2)
      as (w3 & Hrun & Htrace & Hsig & Hdied & Hwl).
    exists w3. rewrite Hrun. cbn [self] in Halive2. rewrite Halive2, Halive1.
    cbn [andb]. split; [destruct (kernel_dies_in pre); reflexivity|].
    split; [rewrite Htrace; exact Htimer|].
    split; [exact Hsig|]. split; [exact Hdied|].
    rewrite Hwl. apply Hw2.
Qed.

(** Events that are due at some times are among the events. *)
Lemma due_no_reply_no_timer call_id p happenings :
  Forall (no_reply_no_timer call_id) (map snd happenings) ->
  Forall (no_reply_no_timer call_id) (due p happenings).
Proof.
  unfold due. induction happenings as [|[t ev] rest IH]; intros Hall; [constructor|].
  apply Forall_cons in Hall as [Hev Hall]. cbn [List.filter fst].
  destruct (p t); [constructor; [exact Hev|]|]; apply IH, Hall.
Qed.

Lemma due_kernel_alive p happenings :
  kernel_dies_in (map snd happenings) = false ->
  kernel_dies_in (due p happenings) = false.
Proof.
  unfold due, kernel_dies_in. induction happenings as [|[t ev] rest IH]; [reflexivity|].
  cbn [map existsb snd List.filter fst]. intros Hall.
  apply orb_false_iff in Hall as [Hev Hall].
  destruct (p t); [cbn [map existsb snd]; rewrite Hev|]; apply IH, Hall.
Qed.

(** C4 (as amended).  A blocking wait with a timeout of [timeout] seconds
    on a kernel that stays alive and does not reply to the call, whatever
    else the event loop handles and whenever.  The wait starts its timer
    once, with [1000 * timeout] ms.  As long as less time than that has
    passed, the method has not returned: it is in [exec_], with [quit]
    connected to both signals.  Once that time has passed it has raised
    [TimeoutError], with [quit] disconnected from both signals.  The
    message of the error is formatted from the waitlist as it was when the
    wait started, so it names the call itself if the call was in the
    waitlist then; the call's own entry is still the same when the timer
    expires. *)
Theorem C4_timeout_at_deadline loop call_id call_name timeout happenings now s :
  alive (kernel_client s) = true ->
  got_reply call_id s = false ->
  Forall (no_reply_no_timer call_id) (map snd happenings) ->
  kernel_dies_in (map snd happenings) = false ->
  let deadline := 1000 * timeout in
  let msg := MsgFormat "Timeout while waiting for {}" (_reply_waitlist s) in
  exists w,
    run (_wait_reply loop call_id call_name timeout
           (qt_delivered deadline now happenings)) s
    = (if now <? deadline then Ok StillWaiting else Raise (TimeoutError msg), w) /\
    timer_started (trace w) = [deadline] /\
    (if now <? deadline
     then LoopQuit loop ∈ connections SigGotReply (self w) /\
          LoopQuit loop ∈ connections SigKernelDied (self w)
     else (LoopQuit loop ∉ connections SigGotReply (self w)) /\
          (LoopQuit loop ∉ connections SigKernelDied (self w))) /\
    _reply_waitlist (self w) !! call_id = _reply_waitlist s !! call_id.
Proof.
  intros Halive Hcond Hquiet Hlive deadline msg.
  assert (Hms : timeout * 1000 = deadline) by (subst deadline; apply Z.mul_comm).
  unfold qt_delivered. destruct (now <? deadline).
  - destruct (proj1 (wait_reply_timer loop call_id call_name timeout
                       (due (fun t => t <=? now) happenings) s Halive Hcond
                       (due_no_reply_no_timer call_id _ happenings Hquiet)))
      as (w & Hrun & Htimer & (_ & Hsig & Hdied & Hwl)).
    rewrite Hms in Htimer.
    exists w. split; [exact Hrun|]. split; [exact Htimer|].
    split; [split; [exact Hsig | exact Hdied] | exact Hwl].
  - destruct (proj2 (wait_reply_timer loop call_id call_name timeout
                       (due (fun t => t <? deadline) happenings) s Halive Hcond
                       (due_no_reply_no_timer call_id _ happenings Hquiet))
                    (due (fun t => (deadline <=? t) && (t <=? now)) happenings))
      as (w & Hrun & Htimer & Hsig & Hdied & Hwl).
    rewrite (due_kernel_alive _ happenings Hlive) in Hrun.
    rewrite Hms in Htimer.
    exists w. split; [exact Hrun|]. split; [exact Htimer|].
    split; [split; [exact Hsig | exact Hdied] | exact Hwl].
Qed.

(** C4 for the call [a] with a timeout of 2 s, while the reply for the
    other blocking call [b] arrives after 0.5 s: after 1999 ms the wait
    goes on, after 2000 ms it has failed. *)
Lemma C4_witness :
  let s := Fixture.kc_two_blocking in
  let msg := MsgFormat "Timeout while waiting for {}" (_reply_waitlist s) in
  alive (kernel_client s) = true /\
  got_reply "a" s = false /\
  (exists w,
     run (_wait_reply 1 "a" "get_value" 2 [ReplyArrives "b" (VInt 7)]) s
     = (Ok StillWaiting, w) /\
     timer_started (trace w) = [2000] /\
     (LoopQuit 1 ∈ connections SigGotReply (self w) /\
      LoopQuit 1 ∈ connections SigKernelDied (self w)) /\
     _reply_waitlist (self w) !! "a" = _reply_waitlist s !! "a") /\
  (exists w,
     run (_wait_reply 1 "a" "get_value" 2 [ReplyArrives "b" (VInt 7); TimerFires]) s
     = (Raise (TimeoutError msg), w) /\
     timer_started (trace w) = [2000] /\
     ((LoopQuit 1 ∉ connections SigGotReply (self w)) /\
      (LoopQuit 1 ∉ connections SigKernelDied (self w))) /\
     _reply_waitlist (self w) !! "a" = _reply_waitlist s !! "a").
Proof.
  intros s msg.
  assert (Ha : alive (kernel_client s) = true) by reflexivity.
  assert (Hc : got_reply "a" s = false) by (vm_compute; reflexivity).
  assert (Hq : Forall (no_reply_no_timer "a") (map snd [(500, ReplyArrives "b" (VInt 7))])).
  { constructor; [simpl; discriminate | constructor]. }
  split; [exact Ha|]. split; [exact Hc|]. split.
  - exact (C4_timeout_at_deadline 1 "a" "get_value" 2 [(500, ReplyArrives "b" (VInt 7))]
             1999 s Ha Hc Hq eq_refl).
  - exact (C4_timeout_at_deadline 1 "a" "get_value" 2 [(500, ReplyArrives "b" (VInt 7))]
             2000 s Ha Hc Hq eq_refl).
Defined.

(** C4 as stated fails.  The blocking calls [a] and [b] are outstanding
    when the wait for [a] starts, with a timeout of 2 s; the reply for [b]
    arrives after 0.5 s, so that [b] is no longer outstanding and its
    payload is in the inbox; after 2 s the timer expires.  The
    [TimeoutError] carries the waitlist of the start, with [b] in it, not
    the calls that are outstanding when the timer expires. *)
Lemma C4_counterexample :
  let s := Fixture.kc_two_blocking in
  let out := run (_wait_reply 1 "a" "get_value" 2
                    (qt_delivered 2000 2000 [(500, ReplyArrives "b" (VInt 7))])) s in
  fst out = Raise (TimeoutError (MsgFormat "Timeout while waiting for {}"
                                           (_reply_waitlist s))) /\
  _reply_waitlist s !! "b" = Some true /\
  _reply_waitlist (self (snd out)) !! "b" = None /\
  _reply_inbox (self (snd out)) !! "b" = Some (VInt 7) /\
  _reply_waitlist (self (snd out)) <> _reply_waitlist s.
Proof.
  vm_compute. repeat split. discriminate.
Qed.

(** * Further properties *)

(** ** The wait, on every path *)

Lemma filter_quit (q : slot) (l : list slot) :
  q ∉ l -> filter (fun x => x <> q) (l ++ [q]) = l.
Proof.
  intros Hq. induction l as [|a l IH]; simpl.
  - rewrite filter_cons_False by (intros Hne; apply Hne; reflexivity). reflexivity.
  - apply not_elem_of_cons in Hq as [Hne Hq].
    rewrite filter_cons_True by (intros ->; apply Hne; reflexivity).
    rewrite IH by exact Hq. reflexivity.
Qed.

(** The head of the loop of a wait for a reply, with [quit] connected:
    it returns when the reply is there, enters [exec_] when the timer
    runs, and raises otherwise; when the method is left, both signals
    have their connections of before. *)
Lemma wait_iteration_exit call_id msg fr s0 w :
  subscribed (wait_loop fr) s0 (self w) ->
  fresh_loop (wait_loop fr) s0 ->
  exists w',
    unsubscribed s0 (self w') /\
    got_reply call_id (self w') = got_reply call_id (self w) /\
    alive (kernel_client (self w')) = alive (kernel_client (self w)) /\
    wait_iteration (got_reply call_id) SigGotReply msg fr w =
      if got_reply call_id (self w) then (Ok (Some Returned), w')
      else if timer_active fr then (Ok None, w)
      else (Raise (if alive (kernel_client (self w))
                   then TimeoutError msg else RuntimeError "Kernel is dead"), w').
Proof.
  intros [Hsig Hdied] [Hf1 Hf2].
  exists (mkWorld (set_connections SigKernelDied (kernel_died (kernel_client s0))
                     (set_connections SigGotReply (_sig_got_reply s0) (self w)))
                  (trace w)).
  split; [split; reflexivity|]. split; [reflexivity|]. split; [reflexivity|].
  assert (Hin1 : LoopQuit (wait_loop fr) ∈ _sig_got_reply (self w)).
  { rewrite Hsig. apply elem_of_app. right. apply list_elem_of_here. }
  assert (Hin2 : LoopQuit (wait_loop fr) ∈ kernel_died (kernel_client (self w))).
  { rewrite Hdied. apply elem_of_app. right. apply list_elem_of_here. }
  unfold wait_iteration, disconnect, bind, get, modify, ret, raise.
  cbn [self trace connections].
  destruct (got_reply call_id (self w)) eqn:Hcond.
  - rewrite bool_decide_eq_true_2 by exact Hin1.
    cbn [self trace connections set_connections set_sig_got_reply kernel_client].
    rewrite bool_decide_eq_true_2 by exact Hin2.
    rewrite Hsig, Hdied, !filter_quit by assumption. reflexivity.
  - destruct (timer_active fr); cbn [negb]; [reflexivity|].
    rewrite bool_decide_eq_true_2 by exact Hin1.
    cbn [self trace connections set_connections set_sig_got_reply kernel_client].
    rewrite bool_decide_eq_true_2 by exact Hin2.
    cbn [self trace].
    rewrite Hsig, Hdied, !filter_quit by assumption.
    unfold got_reply in *.
    cbn [_reply_inbox set_connections set_kernel_client set_sig_got_reply].
    rewrite Hcond.
    cbn [negb alive kernel_client set_connections set_kernel_client set_kernel_died
         set_sig_got_reply].
    destruct (alive (kernel_client (self w))); reflexivity.
Qed.

Lemma wait_post_cons call_id msg loop ev events s0 r s :
  ev <> TimerFires ->
  wait_post call_id msg loop events s0 r s ->
  wait_post call_id msg loop (ev :: events) s0 r s.
Proof.
  intros Hev. destruct r as [[|]|e]; simpl.
  - tauto.
  - intros [Hnot Hsub]. split; [|exact Hsub].
    intros Hin. apply elem_of_cons in Hin as [Heq|Hin]; [congruence | contradiction].
  - intros [Hun [Hdead|(He & Ha & Hc & Hin)]]; split; try exact Hun; [left; exact Hdead|].
    right. repeat split; try assumption. apply list_elem_of_further, Hin.
Qed.

(** One event is handled without failure and leaves the connections of
    both signals alone. *)
Lemma deliver_frame loop interval ev w s0 :
  let fr := mkFrame loop true interval [LoopQuit loop] in
  subscribed loop s0 (self w) ->
  exists fr' slots w',
    deliver fr ev w = (Ok (fr', slots), w') /\
    subscribed loop s0 (self w') /\
    wait_loop fr' = loop /\
    LoopQuit loop ∈ slots /\
    (ev <> TimerFires -> fr' = fr) /\
    (ev = TimerFires -> timer_active fr' = false).
Proof.
  intros fr [Hsig Hdied].
  assert (Hq : forall l : list slot, LoopQuit loop ∈ l ++ [LoopQuit loop]).
  { intros l. apply elem_of_app. right. apply list_elem_of_here. }
  destruct ev as [c buffer| |].
  - destruct (base_handle_remote_call_reply_frame c buffer w)
      as (w1 & Hrun & Htr & Hkc & Hgr & _).
    exists fr, (_sig_got_reply (self w1)),
           (mkWorld (self w1) (trace w1 ++ [EvEmit SigGotReply])).
    split.
    { unfold deliver, _handle_remote_call_reply. unfold bind at 1. unfold bind at 1.
      rewrite Hrun. reflexivity. }
    cbn [self]. split; [split; [rewrite Hgr; exact Hsig | rewrite Hkc; exact Hdied]|].
    split; [reflexivity|]. split; [rewrite Hgr, Hsig; apply Hq|].
    split; [reflexivity | discriminate].
  - exists fr, (kernel_died (kernel_client (self w))),
           (mkWorld (set_kernel_client (set_alive false (kernel_client (self w))) (self w))
                    (trace w ++ [EvEmit SigKernelDied])).
    split; [reflexivity|]. cbn [self].
    split; [split; [exact Hsig | exact Hdied]|].
    split; [reflexivity|]. split; [rewrite Hdied; apply Hq|].
    split; [reflexivity | discriminate].
  - exists (mkFrame loop false interval [LoopQuit loop]), [LoopQuit loop], w.
    split; [reflexivity|]. split; [split; assumption|].
    split; [reflexivity|]. split; [apply list_elem_of_here|].
    split; [congruence | reflexivity].
Qed.

(** Whatever the events, [exec_] ends in a state that [wait_post]
    describes. *)
Lemma exec_post call_id msg loop interval s0 events w :
  subscribed loop s0 (self w) ->
  fresh_loop loop s0 ->
  exists r w',
    exec_ (got_reply call_id) SigGotReply msg events
          (mkFrame loop true interval [LoopQuit loop]) w = (r, w') /\
    wait_post call_id msg loop events s0 r (self w').
Proof.
  intros Hsub Hfresh. revert w Hsub.
  induction events as [|ev rest IH]; intros w Hsub.
  - exists (Ok StillWaiting), w. split; [reflexivity|].
    split; [apply not_elem_of_nil | exact Hsub].
  - destruct (deliver_frame loop interval ev w s0 Hsub)
      as (fr' & slots & w1 & Hdel & Hsub1 & Hloop & Hin & Hsame & Hfired).
    cbn [exec_]. unfold bind at 1. rewrite Hdel. cbn [fst snd].
    rewrite Hloop. rewrite bool_decide_eq_true_2 by exact Hin.
    assert (Hsub1' : subscribed (wait_loop fr') s0 (self w1)) by (rewrite Hloop; exact Hsub1).
    assert (Hfresh' : fresh_loop (wait_loop fr') s0) by (rewrite Hloop; exact Hfresh).
    destruct (wait_iteration_exit call_id msg fr' s0 w1 Hsub1' Hfresh')
      as (w2 & Hun & Hcond & Halive & Hiter).
    unfold bind at 1. rewrite Hiter.
    destruct (got_reply call_id (self w1)) eqn:Hgot.
    + exists (Ok Returned), w2. split; [reflexivity|].
      split; [rewrite Hcond; reflexivity | exact Hun].
    + assert (Hev : ev = TimerFires \/ ev <> TimerFires)
        by (destruct ev; [right; discriminate | right; discriminate | left; reflexivity]).
      destruct Hev as [->|Hne].
      * rewrite (Hfired eq_refl).
        eexists _, w2. split; [reflexivity|]. split; [exact Hun|].
        destruct (alive (kernel_client (self w1))) eqn:Ha.
        -- right. rewrite Halive, Hcond. repeat split. apply list_elem_of_here.
        -- left. rewrite Halive. split; reflexivity.
      * rewrite (Hsame Hne). cbn [timer_active].
        destruct (IH w1 Hsub1) as (r & w3 & Hrun & Hpost).
        exists r, w3. split; [exact Hrun|].
        apply wait_post_cons; assumption.
Qed.

(** [_wait_reply] as a whole: with a new loop object, whatever the events
    are, it ends in a state that [wait_post] describes. *)
Lemma wait_reply_post loop call_id call_name timeout events s :
  fresh_loop loop s ->
  exists r w,
    run (_wait_reply loop call_id call_name timeout events) s = (r, w) /\
    wait_post call_id (MsgFormat "Timeout while waiting for {}" (_reply_waitlist s))
              loop events s r (self w).
Proof.
  intros Hfresh.
  destruct (got_reply call_id s) eqn:Hcond.
  - exists (Ok Returned), (mkWorld s []). split.
    + unfold run, _wait_reply, _wait, bind, get, ret. cbn [self]. rewrite Hcond. reflexivity.
    + split; [exact Hcond | split; reflexivity].
  - destruct (alive (kernel_client s)) eqn:Halive.
    + destruct (wait_reply_enters loop call_id call_name timeout events s Halive Hcond)
        as (s1 & _ & _ & Hrun).
      pose (s2 := set_connections SigGotReply (_sig_got_reply s ++ [LoopQuit loop])
                    (set_connections SigKernelDied
                       (kernel_died (kernel_client s) ++ [LoopQuit loop]) s)).
      assert (Hrun2 : run (_wait_reply loop call_id call_name timeout events) s =
                exec_ (got_reply call_id) SigGotReply
                  (MsgFormat "Timeout while waiting for {}" (_reply_waitlist s))
                  events (mkFrame loop true (timeout * 1000) [LoopQuit loop])
                  (mkWorld s2 [EvTimerStart (timeout * 1000)])).
      { clear Hrun. unfold run, _wait_reply, _wait, connect, bind, get, modify, tell, ret.
        cbn [self trace]. rewrite Hcond, Halive. cbn [negb].
        cbn [connections set_connections self trace set_kernel_client kernel_client
             set_kernel_died _sig_got_reply timer_interval app].
        match goal with
        | |- context [wait_iteration ?c ?sg ?m ?fr ?w] =>
            rewrite (wait_iteration_again call_id m fr w Hcond eq_refl)
        end.
        reflexivity. }
      rewrite Hrun2.
      apply exec_post; [split; reflexivity | exact Hfresh].
    + exists (Raise (RuntimeError "Kernel is dead")), (mkWorld s []). split.
      * unfold run, _wait_reply, _wait, bind, get, ret, raise. cbn [self].
        rewrite Hcond, Halive. reflexivity.
      * split; [split; reflexivity|]. left. split; [reflexivity | exact Halive].
Qed.

(** X1.  What the outcomes of [_wait_reply] mean, whatever the events:
    it returns only with the reply in the inbox, and it raises only
    [RuntimeError("Kernel is dead")], with the kernel not alive, or the
    [TimeoutError] of the message formatted at the start, and that one
    only after the timer fired, with the kernel alive and no reply. *)
Theorem X1_wait_reply_outcomes loop call_id call_name timeout events s :
  fresh_loop loop s ->
  let out := run (_wait_reply loop call_id call_name timeout events) s in
  let final := self (snd out) in
  (fst out = Ok Returned -> got_reply call_id final = true) /\
  (forall e, fst out = Raise e ->
     (e = RuntimeError "Kernel is dead" /\ alive (kernel_client final) = false) \/
     (e = TimeoutError (MsgFormat "Timeout while waiting for {}" (_reply_waitlist s)) /\
      alive (kernel_client final) = true /\
      got_reply call_id final = false /\
      TimerFires ∈ events)).
Proof.
  intros Hfresh out final. subst out final.
  destruct (wait_reply_post loop call_id call_name timeout events s Hfresh)
    as (r & w & -> & Hpost).
  cbn [fst snd]. split.
  - intros ->. apply Hpost.
  - intros e ->. apply Hpost.
Qed.

(** X1 on the two outstanding calls: the kernel dies, the timer fires. *)
Lemma X1_witness :
  fresh_loop 1 Fixture.kc_waiting /\
  let out := run (_wait_reply 1 "a" "get_value" 2 [KernelDies; TimerFires])
                 Fixture.kc_waiting in
  fst out = Raise (RuntimeError "Kernel is dead") /\
  alive (kernel_client (self (snd out))) = false.
Proof.
  assert (Hfresh : fresh_loop 1 Fixture.kc_waiting).
  { split; vm_compute; apply not_elem_of_nil. }
  split; [exact Hfresh|]. intros out.
  assert (Hout : fst out = Raise (RuntimeError "Kernel is dead")) by (vm_compute; reflexivity).
  split; [exact Hout|].
  destruct (proj2 (X1_wait_reply_outcomes 1 "a" "get_value" 2 [KernelDies; TimerFires]
                     Fixture.kc_waiting Hfresh) _ Hout)
    as [[_ Hdead] | [Heq _]]; [exact Hdead | discriminate Heq].
Defined.

(** X2.  When [_wait_reply] is left, by return or by exception and
    whatever the events were, [_sig_got_reply] and [kernel_died] have the
    connections they had before the call: no subscription of the wait
    stays behind, and no [disconnect] fails. *)
Theorem X2_wait_reply_unsubscribes loop call_id call_name timeout events s :
  fresh_loop loop s ->
  let out := run (_wait_reply loop call_id call_name timeout events) s in
  fst out <> Ok StillWaiting ->
  _sig_got_reply (self (snd out)) = _sig_got_reply s /\
  kernel_died (kernel_client (self (snd out))) = kernel_died (kernel_client s).
Proof.
  intros Hfresh out. subst out.
  destruct (wait_reply_post loop call_id call_name timeout events s Hfresh)
    as (r & w & -> & Hpost).
  cbn [fst snd]. intros Hleft.
  destruct r as [[|]|e]; simpl in Hpost.
  - apply Hpost.
  - congruence.
  - apply Hpost.
Qed.

(** X2 on an object that already has a slot on [_sig_got_reply]. *)
Lemma X2_witness :
  let s := set_sig_got_reply [OtherSlot "on_reply"] Fixture.kc_waiting in
  let out := run (_wait_reply 1 "a" "get_value" 2
                    [ReplyArrives "b" VNone; ReplyArrives "a" (VInt 3)]) s in
  fresh_loop 1 s /\
  fst out = Ok Returned /\
  _sig_got_reply (self (snd out)) = [OtherSlot "on_reply"] /\
  kernel_died (kernel_client (self (snd out))) = [].
Proof.
  intros s out.
  assert (Hfresh : fresh_loop 1 s).
  { split; vm_compute.
    - intros Hin. apply list_elem_of_singleton in Hin. discriminate.
    - apply not_elem_of_nil. }
  assert (Hout : fst out = Ok Returned) by (vm_compute; reflexivity).
  split; [exact Hfresh|]. split; [exact Hout|].
  apply (X2_wait_reply_unsubscribes 1 "a" "get_value" 2
           [ReplyArrives "b" VNone; ReplyArrives "a" (VInt 3)] s Hfresh).
  fold out. rewrite Hout. discriminate.
Defined.

(** X3.  The wait does not outlast its timer: if the timer fires among
    the events, [_wait_reply] has returned or raised. *)
Theorem X3_wait_reply_ends_with_timer loop call_id call_name timeout events s :
  fresh_loop loop s ->
  TimerFires ∈ events ->
  fst (run (_wait_reply loop call_id call_name timeout events) s) <> Ok StillWaiting.
Proof.
  intros Hfresh Hin.
  destruct (wait_reply_post loop call_id call_name timeout events s Hfresh)
    as (r & w & -> & Hpost).
  cbn [fst]. intros ->. simpl in Hpost. destruct Hpost as [Hnot _]. contradiction.
Qed.

Lemma X3_witness :
  fresh_loop 1 Fixture.kc_waiting /\
  TimerFires ∈ [KernelDies; TimerFires; ReplyArrives "a" VNone] /\
  fst (run (_wait_reply 1 "a" "get_value" 2
              [KernelDies; TimerFires; ReplyArrives "a" VNone]) Fixture.kc_waiting)
  <> Ok StillWaiting.
Proof.
  assert (Hfresh : fresh_loop 1 Fixture.kc_waiting).
  { split; vm_compute; apply not_elem_of_nil. }
  assert (Hin : TimerFires ∈ [KernelDies; TimerFires; ReplyArrives "a" VNone]).
  { apply list_elem_of_further, list_elem_of_here. }
  split; [exact Hfresh|]. split; [exact Hin|].
  exact (X3_wait_reply_ends_with_timer 1 "a" "get_value" 2 _ Fixture.kc_waiting
           Hfresh Hin).
Defined.

(** The reply for the awaited blocking call ends the wait. *)
Lemma exec_reply_arrives call_id msg loop interval s0 buffer post w :
  waiting loop call_id s0 (self w) ->
  _reply_waitlist s0 !! call_id = Some true ->
  exists w',
    exec_ (got_reply call_id) SigGotReply msg (ReplyArrives call_id buffer :: post)
          (mkFrame loop true interval [LoopQuit loop]) w = (Ok Returned, w') /\
    _reply_inbox (self w') !! call_id = Some buffer /\
    _reply_waitlist (self w') !! call_id = None /\
    (LoopQuit loop ∉ connections SigGotReply (self w')) /\
    (LoopQuit loop ∉ connections SigKernelDied (self w')).
Proof.
  intros (Hcond & Hsig & Hdied & Hwl) Hreg. rewrite Hreg in Hwl.
  cbn [exec_]. unfold bind at 1.
  unfold deliver, _handle_remote_call_reply, base_handle_remote_call_reply.
  unfold emit, bind, get, modify, tell, ret. cbn [self trace]. rewrite Hwl.
  cbn [self trace fst snd connections wait_loop set_reply_inbox set_reply_waitlist
       _sig_got_reply].
  rewrite bool_decide_eq_true_2 by exact Hsig.
  unfold wait_iteration, disconnect, bind, get, modify, ret.
  cbn [self trace wait_loop].
  set (s3 := set_reply_inbox _ (set_reply_waitlist _ (self w))).
  assert (Hgot : got_reply call_id s3 = true).
  { unfold got_reply. apply bool_decide_eq_true_2. subst s3. cbn [_reply_inbox set_reply_inbox].
    rewrite lookup_insert_eq. eauto. }
  rewrite Hgot. cbv beta. cbn [self trace connections].
  change (_sig_got_reply s3) with (_sig_got_reply (self w)).
  rewrite bool_decide_eq_true_2 by exact Hsig.
  cbn [self trace connections set_connections set_sig_got_reply kernel_client].
  change (kernel_client s3) with (kernel_client (self w)).
  rewrite bool_decide_eq_true_2 by exact Hdied.
  eexists. split; [reflexivity|]. cbn.
  split; [apply lookup_insert_eq|]. split; [apply lookup_delete_eq|].
  split; intros Hin; apply list_elem_of_filter in Hin as [Hne _]; apply Hne; reflexivity.
Qed.

(** X4.  The reply to a call that is in the waitlist as blocking ends the
    wait for it: whatever happens before it except the expiry of the timer
    (the death of the kernel included), [_wait_reply] returns, with the
    payload in the inbox under the call id, the call out of the waitlist,
    and [quit] disconnected from both signals. *)
Theorem X4_wait_reply_returns_on_reply loop call_id call_name timeout pre buffer post s :
  alive (kernel_client s) = true ->
  got_reply call_id s = false ->
  _reply_waitlist s !! call_id = Some true ->
  Forall (no_reply_no_timer call_id) pre ->
  exists w,
    run (_wait_reply loop call_id call_name timeout
           (pre ++ ReplyArrives call_id buffer :: post)) s = (Ok Returned, w) /\
    _reply_inbox (self w) !! call_id = Some buffer /\
    _reply_waitlist (self w) !! call_id = None /\
    (LoopQuit loop ∉ connections SigGotReply (self w)) /\
    (LoopQuit loop ∉ connections SigKernelDied (self w)).
Proof.
  intros Halive Hcond Hreg Hpre.
  destruct (wait_reply_enters loop call_id call_name timeout
              (pre ++ ReplyArrives call_id buffer :: post) s Halive Hcond)
    as (s1 & Hw1 & _ & ->).
  destruct (exec_skips call_id
              (MsgFormat "Timeout while waiting for {}" (_reply_waitlist s))
              loop (timeout * 1000) s pre (ReplyArrives call_id buffer :: post)
              (mkWorld s1 [EvTimerStart (timeout * 1000)]) Hpre Hw1)
    as (w2 & Hw2 & _ & _ & ->).
  apply (exec_reply_arrives call_id _ loop (timeout * 1000) s buffer post w2 Hw2 Hreg).
Qed.

(** X4 for the call [a]: the kernel dies, then the reply arrives. *)
Lemma X4_witness :
  alive (kernel_client Fixture.kc_waiting) = true /\
  got_reply "a" Fixture.kc_waiting = false /\
  _reply_waitlist Fixture.kc_waiting !! "a" = Some true /\
  exists w,
    run (_wait_reply 1 "a" "get_value" 2 [KernelDies; ReplyArrives "a" (VInt 3)])
        Fixture.kc_waiting = (Ok Returned, w) /\
    _reply_inbox (self w) !! "a" = Some (VInt 3) /\
    _reply_waitlist (self w) !! "a" = None /\
    (LoopQuit 1 ∉ connections SigGotReply (self w)) /\
    (LoopQuit 1 ∉ connections SigKernelDied (self w)).
Proof.
  assert (Ha : alive (kernel_client Fixture.kc_waiting) = true) by reflexivity.
  assert (Hc : got_reply "a" Fixture.kc_waiting = false) by (vm_compute; reflexivity).
  assert (Hr : _reply_waitlist Fixture.kc_waiting !! "a" = Some true)
    by (vm_compute; reflexivity).
  assert (Hpre : Forall (no_reply_no_timer "a") [KernelDies]).
  { constructor; [exact I | constructor]. }
  split; [exact Ha|]. split; [exact Hc|]. split; [exact Hr|].
  exact (X4_wait_reply_returns_on_reply 1 "a" "get_value" 2 [KernelDies] (VInt 3) []
           Fixture.kc_waiting Ha Hc Hr Hpre).
Defined.

(** ** Shutting down, removing and closing *)

Lemma for_each_tell (f : string -> event) ids w :
  for_each ids (fun i => tell (f i)) w =
    (Ok tt, mkWorld (self w) (trace w ++ map f ids)).
Proof.
  revert w. induction ids as [|a ids IH]; intros w.
  - simpl. rewrite app_nil_r, world_eta. reflexivity.
  - cbn [for_each]. unfold bind at 1. unfold tell at 1. rewrite IH.
    cbn [self trace map]. rewrite <- app_assoc. reflexivity.
Qed.

Lemma count_app p t1 t2 : count p (t1 ++ t2) = (count p t1 + count p t2)%nat.
Proof. unfold count. rewrite List.filter_app, length_app. reflexivity. Qed.

Lemma count_shutdown_requests ch ids :
  count is_sent (map (EvChannelSend ch "shutdown_request") ids) = length ids.
Proof. induction ids as [|a ids IH]; [reflexivity|]. unfold count in *. simpl. rewrite IH. reflexivity. Qed.

Lemma length_matched_all s : length (matched None s) = size (_comms s).
Proof. simpl. rewrite length_map. apply length_map_to_list. Qed.

(** [shutdown_comm_channel] on any world. *)
Lemma shutdown_comm_channel_run w :
  shutdown_comm_channel w =
    (Ok tt, mkWorld (match comm_channel (kernel_client (self w)) with
                     | Some _ => disconnected (self w)
                     | None => self w
                     end)
                    (trace w ++ shutdown_requests (self w))).
Proof.
  unfold shutdown_comm_channel, shutdown_requests, bind, get. cbn [self].
  destruct (comm_channel (kernel_client (self w))) as [ch|].
  - unfold get_comm_id_list, bind, get, ret. cbn [self].
    rewrite for_each_tell. reflexivity.
  - unfold ret. rewrite app_nil_r, world_eta. reflexivity.
Qed.

(** The ids that [get_comm_id_list] gives for [None] are the registered
    comms, each once; any other list of them is a permutation of it. *)
Lemma matched_all_enumerates s : enumerates (matched None s) s.
Proof.
  split; [apply (NoDup_fst_map_to_list (_comms s))|].
  intros i. split; [apply matched_all_registered|].
  intros [c Hc]. simpl. apply list_elem_of_fmap. exists (i, c).
  split; [reflexivity | apply elem_of_map_to_list; exact Hc].
Qed.

Lemma enumerates_Permutation ids s : enumerates ids s -> matched None s ≡ₚ ids.
Proof.
  intros [Hnd Hin]. destruct (matched_all_enumerates s) as [Hnd' Hin'].
  apply NoDup_Permutation; [exact Hnd' | exact Hnd|].
  intros i. rewrite Hin, Hin'. reflexivity.
Qed.

(** X5.  [shutdown_comm_channel] on an object that has a kernel client.
    With a comm channel it sends one [shutdown_request] for each
    registered comm on that channel and nothing else (the order of these
    requests is that of the comm table and is left open here), then sets
    the channel to [None]; without one it does nothing.  The comms stay
    registered, and a second call sends nothing and changes nothing. *)
Theorem X5_shutdown_comm_channel ids s :
  enumerates ids s ->
  let out := run shutdown_comm_channel s in
  trace (snd out) ≡ₚ
    match comm_channel (kernel_client s) with
    | Some ch => map (EvChannelSend ch "shutdown_request") ids
    | None => []
    end /\
  count is_sent (trace (snd out)) =
    match comm_channel (kernel_client s) with
    | Some _ => size (_comms s)
    | None => 0%nat
    end /\
  self (snd out) =
    match comm_channel (kernel_client s) with
    | Some _ => disconnected s
    | None => s
    end /\
  snd (shutdown_comm_channel (snd out)) = snd out.
Proof.
  intros Hids out. subst out. unfold run. rewrite shutdown_comm_channel_run.
  cbn [fst snd self trace app].
  split; [|split; [|split]].
  - unfold shutdown_requests.
    destruct (comm_channel (kernel_client s)); [|reflexivity].
    apply Permutation_map, enumerates_Permutation, Hids.
  - unfold shutdown_requests.
    destruct (comm_channel (kernel_client s)); [|reflexivity].
    rewrite count_shutdown_requests. apply length_matched_all.
  - reflexivity.
  - rewrite shutdown_comm_channel_run. cbn [snd self trace].
    assert (Hnone : comm_channel
                      (kernel_client
                         (match comm_channel (kernel_client s) with
                          | Some _ => disconnected s
                          | None => s
                          end)) = None)
      by (destruct (comm_channel (kernel_client s)) eqn:Hch; [reflexivity | exact Hch]).
    unfold shutdown_requests at 2. rewrite Hnone. rewrite app_nil_r. reflexivity.
Qed.

(** X5 on the object with the comms [c1] and [c2] and the channel for
    port 5555 installed. *)
Lemma X5_witness :
  let out := run shutdown_comm_channel Fixture.kc_two_comms in
  enumerates ["c1"; "c2"] Fixture.kc_two_comms /\
  trace (snd out) ≡ₚ [EvChannelSend Fixture.comm5555 "shutdown_request" "c1";
                       EvChannelSend Fixture.comm5555 "shutdown_request" "c2"] /\
  count is_sent (trace (snd out)) = 2%nat /\
  self (snd out) = disconnected Fixture.kc_two_comms /\
  snd (shutdown_comm_channel (snd out)) = snd out.
Proof.
  intros out.
  assert (Hids : enumerates ["c1"; "c2"] Fixture.kc_two_comms)
    by exact (matched_all_enumerates Fixture.kc_two_comms).
  split; [exact Hids|].
  exact (X5_shutdown_comm_channel ["c1"; "c2"] Fixture.kc_two_comms Hids).
Defined.

Lemma foldl_delete_lookup ids (m : gmap string Comm) i :
  foldl (fun acc k => delete k acc) m ids !! i =
    if decide (i ∈ ids) then None else m !! i.
Proof.
  revert m. induction ids as [|a ids IH]; intros m; cbn [foldl].
  - case_decide as Hin; [|reflexivity]. apply elem_of_nil in Hin. contradiction.
  - rewrite IH. destruct (decide (i ∈ ids)) as [Hin|Hnin].
    + rewrite decide_True; [reflexivity | apply list_elem_of_further, Hin].
    + destruct (decide (i = a)) as [->|Hne].
      * rewrite decide_True by apply list_elem_of_here. apply lookup_delete_eq.
      * rewrite decide_False.
        -- apply lookup_delete_ne. congruence.
        -- intros Hin. apply elem_of_cons in Hin as [?|?]; contradiction.
Qed.

(** The loop of [remove] on distinct registered ids. *)
Lemma for_each_delete ids w :
  NoDup ids ->
  registered ids (self w) ->
  for_each ids (fun comm_id =>
    s <- get ;;
    match _comms s !! comm_id with
    | Some _ => modify (set_comms (delete comm_id (_comms s)))
    | None => raise (KeyError comm_id)
    end) w =
  (Ok tt, mkWorld (set_comms (foldl (fun acc k => delete k acc) (_comms (self w)) ids)
                             (self w))
                  (trace w)).
Proof.
  revert w. induction ids as [|a ids IH]; intros w Hnd Hreg.
  - simpl. unfold ret. rewrite set_comms_id, world_eta. reflexivity.
  - apply NoDup_cons in Hnd as [Hna Hnd].
    cbn [for_each]. unfold bind at 1. unfold bind at 1. unfold get at 1. cbn [self].
    destruct (Hreg a (list_elem_of_here a ids)) as [c Hc]. rewrite Hc.
    unfold modify at 1. cbn [self trace].
    rewrite IH; [reflexivity | exact Hnd |].
    intros i Hi. cbn [self _comms set_comms].
    rewrite lookup_delete_ne by (intros ->; contradiction).
    apply Hreg, list_elem_of_further, Hi.
Qed.

(** [remove] on any object. *)
Lemma remove_run s :
  run (remove None) s = (Ok tt, mkWorld (set_comms ∅ s) []) /\
  forall c,
    run (remove (Some c)) s =
      match _comms s !! c with
      | Some _ => (Ok tt, mkWorld (set_comms (delete c (_comms s)) s) [])
      | None => (Raise (KeyError c), mkWorld s [])
      end.
Proof.
  split.
  - unfold run, remove, get_comm_id_list. unfold bind at 1. unfold bind at 1.
    unfold get at 1, ret at 1. cbn [self].
    rewrite for_each_delete.
    + cbn [self trace]. f_equal. f_equal. f_equal.
      apply map_eq. intros i. rewrite foldl_delete_lookup, lookup_empty.
      case_decide as Hin; [reflexivity|].
      destruct (_comms s !! i) as [c|] eqn:Hc; [|reflexivity].
      exfalso. apply Hin. apply list_elem_of_fmap. exists (i, c). split; [reflexivity|].
      apply elem_of_map_to_list. exact Hc.
    + apply (NoDup_fst_map_to_list (_comms s)).
    + apply matched_all_registered.
  - intros c. unfold run, remove, get_comm_id_list.
    unfold bind at 1. unfold bind at 1. unfold get at 1, ret at 1.
    cbn [self for_each]. unfold bind, get, ret, modify, raise. cbn [self trace].
    destruct (_comms s !! c); reflexivity.
Qed.

(** X6.  [remove()] with no comm id unregisters every comm and never
    fails; with the id of a registered comm it unregisters that comm
    alone; with an unknown id it raises [KeyError] and changes nothing.
    In no case is anything sent, nor the kernel client touched. *)
Theorem X6_remove s :
  run (remove None) s = (Ok tt, mkWorld (set_comms ∅ s) []) /\
  forall c,
    run (remove (Some c)) s =
      match _comms s !! c with
      | Some _ => (Ok tt, mkWorld (set_comms (delete c (_comms s)) s) [])
      | None => (Raise (KeyError c), mkWorld s [])
      end.
Proof. apply remove_run. Qed.

(** The loop of [close] on registered ids. *)
Lemma for_each_comm_close ids w :
  registered ids (self w) ->
  for_each ids (fun comm_id =>
    s <- get ;;
    match _comms s !! comm_id with
    | Some _ => tell (EvCommSendMsg comm_id "comm_close")
    | None => raise (KeyError comm_id)
    end) w =
  (Ok tt, mkWorld (self w)
            (trace w ++ map (fun i => EvCommSendMsg i "comm_close") ids)).
Proof.
  revert w. induction ids as [|a ids IH]; intros w Hreg.
  - simpl. unfold ret. rewrite app_nil_r, world_eta. reflexivity.
  - cbn [for_each]. unfold bind at 1. unfold bind at 1. unfold get at 1. cbn [self].
    destruct (Hreg a (list_elem_of_here a ids)) as [c Hc]. rewrite Hc.
    unfold tell at 1. rewrite IH.
    + cbn [self trace map]. rewrite <- app_assoc. reflexivity.
    + intros i Hi. cbn [self]. apply Hreg, list_elem_of_further, Hi.
Qed.

Lemma matched_same_comms comm_id s s' :
  _comms s' = _comms s -> matched comm_id s' = matched comm_id s.
Proof. intros Heq. destruct comm_id; simpl; [reflexivity | rewrite Heq; reflexivity]. Qed.

(** [close] on any object. *)
Lemma close_run comm_id s :
  let out := run (close comm_id) s in
  comm_channel (kernel_client (self (snd out))) = None /\
  _comms (self (snd out)) = _comms s /\
  (registered (matched comm_id s) s ->
   fst out = Ok tt /\
   trace (snd out) =
     shutdown_requests s ++ map (fun i => EvCommSendMsg i "comm_close") (matched comm_id s)) /\
  (forall c, comm_id = Some c -> _comms s !! c = None ->
   fst out = Raise (KeyError c) /\ trace (snd out) = shutdown_requests s).
Proof.
  intros out.
  pose (s1 := match comm_channel (kernel_client s) with
              | Some _ => disconnected s
              | None => s
              end).
  assert (Hcomms : _comms s1 = _comms s)
    by (subst s1; destruct (comm_channel (kernel_client s)); reflexivity).
  assert (Hnone : comm_channel (kernel_client s1) = None)
    by (subst s1; destruct (comm_channel (kernel_client s)) eqn:Hch;
        [reflexivity | exact Hch]).
  assert (Hrun : registered (matched comm_id s) s ->
            out = (Ok tt, mkWorld s1 (shutdown_requests s ++
                     map (fun i => EvCommSendMsg i "comm_close") (matched comm_id s)))).
  { intros Hreg. subst out. unfold run, close. unfold bind at 1.
    rewrite shutdown_comm_channel_run. cbn [self trace app]. fold s1.
    assert (Hreg1 : registered (matched comm_id s) s1).
    { intros i Hi. rewrite Hcomms. apply Hreg, Hi. }
    unfold get_comm_id_list.
    destruct comm_id as [c|]; unfold bind at 1; unfold bind at 1;
      unfold get at 1, ret at 1; cbn [self matched] in *.
    - rewrite for_each_comm_close by exact Hreg1. reflexivity.
    - replace (_comms s1) with (_comms s) by (symmetry; exact Hcomms).
      rewrite for_each_comm_close by exact Hreg1. reflexivity. }
  assert (Hfail : forall c, comm_id = Some c -> _comms s !! c = None ->
            out = (Raise (KeyError c), mkWorld s1 (shutdown_requests s))).
  { intros c -> Hc. subst out. unfold run, close. unfold bind at 1.
    rewrite shutdown_comm_channel_run. cbn [self trace app]. fold s1.
    unfold get_comm_id_list. unfold bind at 1. unfold bind at 1.
    unfold get at 1, ret at 1. cbn [self for_each].
    unfold bind, get, ret, raise. cbn [self].
    replace (_comms s1) with (_comms s) by (symmetry; exact Hcomms).
    rewrite Hc. reflexivity. }
  assert (Hcases : registered (matched comm_id s) s \/
                   exists c, comm_id = Some c /\ _comms s !! c = None).
  { destruct comm_id as [c|]; [|left; apply matched_all_registered].
    destruct (_comms s !! c) as [cm|] eqn:Hc.
    - left. intros i Hi. apply list_elem_of_singleton in Hi as ->. rewrite Hc. eauto.
    - right. eauto. }
  split; [|split; [|split]].
  - destruct Hcases as [Hreg | (c & Heq & Hc)];
      [rewrite (Hrun Hreg) | rewrite (Hfail c Heq Hc)]; exact Hnone.
  - destruct Hcases as [Hreg | (c & Heq & Hc)];
      [rewrite (Hrun Hreg) | rewrite (Hfail c Heq Hc)]; exact Hcomms.
  - intros Hreg. rewrite (Hrun Hreg). split; reflexivity.
  - intros c Heq Hc. rewrite (Hfail c Heq Hc). split; reflexivity.
Qed.

(** X7.  [close] on an object that has a kernel client.  It shuts the
    comm channel down first, with one [shutdown_request] for each
    registered comm when there is a comm channel, and then sends one
    [comm_close] to each targeted comm: the given one, or every registered
    comm (the order inside each of the two groups is that of the comm
    table and is left open here).  It leaves the comms registered and the
    comm channel at [None] in every case, also when the comm id is
    unknown: then it raises [KeyError] after the channel has been shut
    down, and no [comm_close] is sent. *)
Theorem X7_close comm_id ids s :
  enumerates ids s ->
  let out := run (close comm_id) s in
  let requests :=
    match comm_channel (kernel_client s) with
    | Some ch => map (EvChannelSend ch "shutdown_request") ids
    | None => []
    end in
  let targets := match comm_id with Some c => [c] | None => ids end in
  comm_channel (kernel_client (self (snd out))) = None /\
  _comms (self (snd out)) = _comms s /\
  (registered targets s ->
   fst out = Ok tt /\
   exists reqs closes,
     trace (snd out) = reqs ++ closes /\
     reqs ≡ₚ requests /\
     closes ≡ₚ map (fun i => EvCommSendMsg i "comm_close") targets) /\
  (forall c, comm_id = Some c -> _comms s !! c = None ->
   fst out = Raise (KeyError c) /\ trace (snd out) ≡ₚ requests).
Proof.
  intros Hids out requests targets.
  destruct (close_run comm_id s) as (Hnone & Hcomms & Hok & Hfail).
  fold out in Hnone, Hcomms, Hok, Hfail.
  assert (Hreqs : shutdown_requests s ≡ₚ requests).
  { unfold shutdown_requests. subst requests.
    destruct (comm_channel (kernel_client s)); [|reflexivity].
    apply Permutation_map, enumerates_Permutation, Hids. }
  assert (Htargets : matched comm_id s ≡ₚ targets).
  { subst targets. destruct comm_id as [c|]; [reflexivity|].
    apply enumerates_Permutation, Hids. }
  split; [exact Hnone|]. split; [exact Hcomms|]. split.
  - intros Hreg.
    assert (Hreg' : registered (matched comm_id s) s).
    { intros i Hi. apply Hreg. rewrite <- Htargets. exact Hi. }
    destruct (Hok Hreg') as [Hres Htrace]. split; [exact Hres|].
    exists (shutdown_requests s),
           (map (fun i => EvCommSendMsg i "comm_close") (matched comm_id s)).
    split; [exact Htrace|]. split; [exact Hreqs|].
    apply Permutation_map, Htargets.
  - intros c Heq Hc. destruct (Hfail c Heq Hc) as [Hres Htrace].
    split; [exact Hres|]. rewrite Htrace. exact Hreqs.
Qed.

(** X7 on the object with the comms [c1] and [c2] and the channel for
    port 5555 installed: for all comms, and for the unknown comm [zz]. *)
Lemma X7_witness :
  let s := Fixture.kc_two_comms in
  let requests := [EvChannelSend Fixture.comm5555 "shutdown_request" "c1";
                   EvChannelSend Fixture.comm5555 "shutdown_request" "c2"] in
  enumerates ["c1"; "c2"] s /\
  registered ["c1"; "c2"] s /\
  _comms s !! "zz" = None /\
  (let out := run (close None) s in
   fst out = Ok tt /\
   exists reqs closes,
     trace (snd out) = reqs ++ closes /\
     reqs ≡ₚ requests /\
     closes ≡ₚ [EvCommSendMsg "c1" "comm_close"; EvCommSendMsg "c2" "comm_close"]) /\
  (let out := run (close (Some "zz")) s in
   fst out = Raise (KeyError "zz") /\ trace (snd out) ≡ₚ requests).
Proof.
  intros s requests.
  assert (Hids : enumerates ["c1"; "c2"] s) by exact (matched_all_enumerates s).
  assert (Hreg : registered ["c1"; "c2"] s) by exact (matched_all_registered s).
  assert (Hzz : _comms s !! "zz" = None) by (vm_compute; reflexivity).
  split; [exact Hids|]. split; [exact Hreg|]. split; [exact Hzz|]. split.
  - exact (proj1 (proj2 (proj2 (X7_close None ["c1"; "c2"] s Hids))) Hreg).
  - exact (proj2 (proj2 (proj2 (X7_close (Some "zz") ["c1"; "c2"] s Hids)))
             "zz" eq_refl Hzz).
Defined.

(** ** Opening a comm and incoming calls *)

(** X8.  [open_comm] clears the comm channel of the client but keeps the
    recorded port of the object: when the port recorded before is
    advertised again after [open_comm], nothing is constructed and the
    comm channel stays disconnected; the new comm sends on the shell
    channel. *)
Theorem X8_reopen_keeps_recorded_port new_id client env p s :
  remote_comm_port s = Some p ->
  let out := run (open_comm new_id client ;; _set_comm_port env (Some p)) s in
  fst out = Ok tt /\
  trace (snd out) = [EvNewComm new_id] /\
  remote_comm_port (self (snd out)) = Some p /\
  comm_channel (kernel_client (self (snd out))) = None /\
  _comms (self (snd out)) !! new_id = Some (mkComm (Some (shell_channel client))).
Proof.
  intros Hp out. subst out.
  unfold run, open_comm. unfold bind, modify_client, modify, tell, ret.
  cbn [self trace app].
  rewrite set_comm_port_unchanged by exact Hp.
  cbn [fst snd self trace]. repeat split.
  - cbn. exact Hp.
  - cbn. apply lookup_insert_eq.
Qed.

Lemma X8_witness :
  remote_comm_port Fixture.kc_installed = Some 5555 /\
  let out := run (open_comm "c2" Fixture.local_client ;;
                  _set_comm_port Fixture.env_ok (Some 5555)) Fixture.kc_installed in
  fst out = Ok tt /\
  trace (snd out) = [EvNewComm "c2"] /\
  remote_comm_port (self (snd out)) = Some 5555 /\
  comm_channel (kernel_client (self (snd out))) = None /\
  _comms (self (snd out)) !! "c2" = Some (mkComm (Some Fixture.shell0)).
Proof.
  assert (Hp : remote_comm_port Fixture.kc_installed = Some 5555) by reflexivity.
  split; [exact Hp|].
  exact (X8_reopen_keeps_recorded_port "c2" Fixture.local_client Fixture.env_ok 5555
           Fixture.kc_installed Hp).
Defined.

(** X9.  An incoming call that advertises a new port to a tunnelled
    connection whose tunnel fails is not dispatched: [on_incoming_call]
    raises the tunnel's exception and the base method is not called.  The
    port is recorded all the same, so that the same call arriving again is
    passed to the base method as it is, whatever the tunnel would do. *)
Theorem X9_incoming_call_and_failed_tunnel `{CommBase} env env' c p params e s :
  call_comm_port c = Some (Some p) ->
  ssh_parameters (kernel_client s) = Some params ->
  remote_comm_port s <> Some p ->
  tunnel_failure env = Some e ->
  let out := run (on_incoming_call env c) s in
  fst out = Raise e /\
  count is_base_call (trace (snd out)) = 0%nat /\
  on_incoming_call env' c (snd out) =
    call_base (fun _ => EvBaseOnIncomingCall c) (super_on_incoming_call c) (snd out).
Proof.
  intros Hport Hssh Hrec Htun out. subst out. destruct params as [[h k] pw].
  assert (Hrun : run (_set_comm_port env (Some p)) s =
            (Raise e, mkWorld (set_remote_comm_port (Some p) s)
                        [EvSshTunnel (if os_nt env then Paramiko else OpenSSH)
                           (random_port env) p h (ip (kernel_client s)) k pw 10])).
  { py_unfold. simpl. rewrite bool_decide_eq_false_2 by congruence.
    rewrite Hssh. simpl. rewrite Htun. reflexivity. }
  unfold run in *.
  assert (Hout : on_incoming_call env c (mkWorld s []) =
            (Raise e, mkWorld (set_remote_comm_port (Some p) s)
                        [EvSshTunnel (if os_nt env then Paramiko else OpenSSH)
                           (random_port env) p h (ip (kernel_client s)) k pw 10])).
  { unfold on_incoming_call. rewrite Hport. unfold bind at 1. rewrite Hrun. reflexivity. }
  rewrite Hout. cbn [fst snd trace].
  split; [reflexivity|]. split; [reflexivity|].
  unfold on_incoming_call. rewrite Hport.
  unfold bind at 1. rewrite set_comm_port_unchanged by reflexivity. reflexivity.
Qed.

Lemma X9_witness :
  let c := mkCall "get_value" "a" ∅ (Some (Some 6000)) in
  let out := run (@on_incoming_call Fixture.quiet_base Fixture.env_tunnel_down c)
                 Fixture.kc_remote in
  fst out = Raise (RuntimeError "tunnel '%s' failed to start") /\
  count is_base_call (trace (snd out)) = 0%nat /\
  @on_incoming_call Fixture.quiet_base Fixture.env_ok c (snd out) =
    call_base (fun _ => EvBaseOnIncomingCall c)
              (@super_on_incoming_call Fixture.quiet_base c) (snd out).
Proof.
  intros c.
  refine (@X9_incoming_call_and_failed_tunnel Fixture.quiet_base Fixture.env_tunnel_down
            Fixture.env_ok c 6000 _ _ Fixture.kc_remote eq_refl eq_refl _ eq_refl).
  vm_compute. discriminate.
Defined.

(** X10.  With [queue_message] false the context manager fails before
    the body in two cases, the same for every body, leaving the object as
    it was: when the comm channel is not connected it asks once for the
    comm configuration and raises [CommError]; when it is connected and
    the comm id is not registered it raises [KeyError]. *)
Theorem X10_manager_fails_before_body {A} (body : Py A) comm_id s :
  (comm_channel (kernel_client s) = None ->
   run (comm_channel_manager comm_id false body) s =
     (Raise (CommError "Comm not connected."), mkWorld s [EvSendCommConfig])) /\
  (forall c pri,
     comm_id = Some c ->
     comm_channel (kernel_client s) = Some pri ->
     _comms s !! c = None ->
     run (comm_channel_manager comm_id false body) s = (Raise (KeyError c), mkWorld s [])).
Proof.
  split.
  - intros Hnone. unfold run, comm_channel_manager, comm_channel_connected.
    unfold send_comm_config, bind, get, ret, tell, raise. cbn [self trace app].
    rewrite Hnone.
    rewrite bool_decide_eq_false_2 by (intros Hne; apply Hne; reflexivity).
    reflexivity.
  - intros c pri -> Hpri Hc. unfold run, comm_channel_manager, comm_channel_connected.
    unfold get_comm_id_list, bind, get, ret. cbn [self trace].
    rewrite Hpri. rewrite bool_decide_eq_true_2 by discriminate. cbn [negb for_each].
    unfold assign_send_channel, bind, get, ret, raise. cbn [self trace].
    rewrite Hc. reflexivity.
Qed.

Lemma X10_witness :
  comm_channel (kernel_client Fixture.kc_open) = None /\
  run (comm_channel_manager (Some "c1") false (remove None)) Fixture.kc_open
  = (Raise (CommError "Comm not connected."), mkWorld Fixture.kc_open [EvSendCommConfig]) /\
  _comms Fixture.kc_installed !! "zz" = None /\
  run (comm_channel_manager (Some "zz") false (remove None)) Fixture.kc_installed
  = (Raise (KeyError "zz"), mkWorld Fixture.kc_installed []).
Proof.
  assert (H1 : comm_channel (kernel_client Fixture.kc_open) = None) by reflexivity.
  assert (H2 : _comms Fixture.kc_installed !! "zz" = None) by (vm_compute; reflexivity).
  split; [exact H1|]. split; [|split; [exact H2|]].
  - exact (proj1 (X10_manager_fails_before_body (remove None) (Some "c1")
                    Fixture.kc_open) H1).
  - exact (proj2 (X10_manager_fails_before_body (remove None) (Some "zz")
                    Fixture.kc_installed) "zz" Fixture.comm5555 eq_refl eq_refl H2).
Defined.

(** ** Calls and replies on the comm channel *)

(** X11.  An interrupting or blocking call on a live kernel with the comm
    channel connected: the base method runs with the matched comms sending
    on the comm channel, no comm configuration is asked for, the value of
    the base method is returned, and afterwards the matched comms send on
    the shell channel again. *)
Theorem X11_call_on_comm_channel `{CommBase} call_dict call_data comm_id s pri v s' :
  alive (kernel_client s) = true ->
  comm_channel (kernel_client s) = Some pri ->
  setting "interrupt" call_dict || setting "blocking" call_dict = true ->
  let ids := matched comm_id s in
  registered ids s ->
  super_get_call_return_value call_dict call_data comm_id
    (set_comms (rebind ids (Some pri) (_comms s)) s) = (Ok v, s') ->
  registered ids s' ->
  run (_get_call_return_value call_dict call_data comm_id) s =
    (Ok v,
     mkWorld (set_comms (rebind ids (Some (shell_channel (kernel_client s'))) (_comms s')) s')
             [EvBaseGetCall call_dict comm_id (rebind ids (Some pri) (_comms s))]).
Proof.
  intros Halive Hpri Hint ids Hreg Hbase Hreg'.
  rewrite (get_call_return_value_alive call_dict call_data comm_id s Halive).
  cbv zeta. rewrite Hint, Hpri.
  rewrite bool_decide_eq_true_2 by discriminate. cbn [negb andb].
  unfold try_except_RuntimeError.
  rewrite (comm_channel_manager_priority _ comm_id (mkWorld s []) pri Hpri Hreg).
  cbn [self trace]. fold ids.
  erewrite try_finally_restore; cycle 1.
  { unfold call_base. cbn [self trace]. rewrite Hbase. reflexivity. }
  { exact Hreg'. }
  reflexivity.
Qed.

Lemma X11_witness :
  let ids := matched (Some "c1") Fixture.kc_installed in
  alive (kernel_client Fixture.kc_installed) = true /\
  comm_channel (kernel_client Fixture.kc_installed) = Some Fixture.comm5555 /\
  registered ids Fixture.kc_installed /\
  exists w,
    run (@_get_call_return_value Fixture.quiet_base Fixture.blocking_call VNone (Some "c1"))
        Fixture.kc_installed = (Ok VNone, w) /\
    trace w = [EvBaseGetCall Fixture.blocking_call (Some "c1")
                 (rebind ids (Some Fixture.comm5555) (_comms Fixture.kc_installed))] /\
    _comms (self w) !! "c1" = Some (mkComm (Some Fixture.shell0)).
Proof.
  intros ids.
  assert (Ha : alive (kernel_client Fixture.kc_installed) = true) by reflexivity.
  assert (Hp : comm_channel (kernel_client Fixture.kc_installed) = Some Fixture.comm5555)
    by reflexivity.
  assert (Hr : registered ids Fixture.kc_installed).
  { intros i Hi. apply list_elem_of_singleton in Hi as ->. vm_compute. eauto. }
  assert (Hr' : registered ids
                  (set_comms (rebind ids (Some Fixture.comm5555)
                                (_comms Fixture.kc_installed)) Fixture.kc_installed)).
  { intros i Hi. apply list_elem_of_singleton in Hi as ->. vm_compute. eauto. }
  split; [exact Ha|]. split; [exact Hp|]. split; [exact Hr|].
  eexists. split.
  - exact (@X11_call_on_comm_channel Fixture.quiet_base Fixture.blocking_call VNone
             (Some "c1") Fixture.kc_installed Fixture.comm5555 VNone _
             Ha Hp eq_refl Hr eq_refl Hr').
  - split; [reflexivity|]. vm_compute. reflexivity.
Defined.

(** X12.  A call that asks neither for an interrupt nor for blocking, on
    a live kernel: whether or not the comm channel is connected, the base
    method runs on the object as it is (no comm rebound), no comm
    configuration is asked for, and the outcome is the base method's, a
    [RuntimeError] being logged and turned into [None]. *)
Theorem X12_plain_call_is_queued `{CommBase} call_dict call_data comm_id s :
  alive (kernel_client s) = true ->
  setting "interrupt" call_dict = false ->
  setting "blocking" call_dict = false ->
  let handled := super_get_call_return_value call_dict call_data comm_id s in
  let called := EvBaseGetCall call_dict comm_id (_comms s) in
  run (_get_call_return_value call_dict call_data comm_id) s =
    match fst handled with
    | Ok v => (Ok v, mkWorld (snd handled) [called])
    | Raise e =>
        if is_RuntimeError e
        then (Ok VNone, mkWorld (snd handled) [called; log_exception e call_dict])
        else (Raise e, mkWorld (snd handled) [called])
    end.
Proof.
  intros Halive Hi Hb handled called. subst handled called.
  rewrite (get_call_return_value_alive call_dict call_data comm_id s Halive).
  cbv zeta. rewrite Hi, Hb. cbn [orb andb negb].
  unfold try_except_RuntimeError, comm_channel_manager, call_base. cbn [self trace].
  destruct (super_get_call_return_value call_dict call_data comm_id s) as [[v|e] s'].
  - reflexivity.
  - cbn. destruct (is_RuntimeError e); reflexivity.
Qed.

Lemma X12_witness :
  alive (kernel_client Fixture.kc_installed) = true /\
  run (@_get_call_return_value (Fixture.failing_base (CommError "closed"))
         Fixture.plain_call VNone (Some "c1")) Fixture.kc_installed
  = (Ok VNone,
     mkWorld Fixture.kc_installed
       [EvBaseGetCall Fixture.plain_call (Some "c1") (_comms Fixture.kc_installed);
        log_exception (CommError "closed") Fixture.plain_call]).
Proof.
  assert (Ha : alive (kernel_client Fixture.kc_installed) = true) by reflexivity.
  split; [exact Ha|].
  exact (@X12_plain_call_is_queued (Fixture.failing_base (CommError "closed"))
           Fixture.plain_call VNone (Some "c1") Fixture.kc_installed Ha eq_refl eq_refl).
Defined.

(** X15.  A reply while the comm channel is connected: the base method
    runs with the comms of the calling comm id sending on the comm
    channel, its outcome is the outcome of the reply, and afterwards those
    comms send on the shell channel again. *)
Theorem X15_reply_on_comm_channel `{CommBase} call_dict data is_error s pri r s' :
  comm_channel (kernel_client s) = Some pri ->
  let ids := matched (calling_comm_id s) s in
  registered ids s ->
  super_set_call_return_value call_dict data is_error
    (set_comms (rebind ids (Some pri) (_comms s)) s) = (r, s') ->
  registered ids s' ->
  run (_set_call_return_value call_dict data is_error) s =
    (r,
     mkWorld (set_comms (rebind ids (Some (shell_channel (kernel_client s'))) (_comms s')) s')
             [EvBaseSetReturn call_dict is_error (rebind ids (Some pri) (_comms s))]).
Proof.
  intros Hpri ids Hreg Hbase Hreg'. unfold run.
  rewrite set_call_return_value_eq. cbn [self]. rewrite Hpri.
  rewrite bool_decide_eq_true_2 by discriminate. cbn [negb].
  rewrite (comm_channel_manager_priority _ (calling_comm_id s) (mkWorld s []) pri Hpri Hreg).
  cbn [self trace]. fold ids.
  erewrite try_finally_restore; cycle 1.
  { unfold call_base. cbn [self trace]. rewrite Hbase. reflexivity. }
  { exact Hreg'. }
  reflexivity.
Qed.

(** X15 with no calling comm id: every comm is matched. *)
Lemma X15_witness :
  let ids := matched None Fixture.kc_installed in
  comm_channel (kernel_client Fixture.kc_installed) = Some Fixture.comm5555 /\
  calling_comm_id Fixture.kc_installed = None /\
  exists w,
    run (@_set_call_return_value Fixture.quiet_base Fixture.plain_call VNone false)
        Fixture.kc_installed = (Ok tt, w) /\
    trace w = [EvBaseSetReturn Fixture.plain_call false
                 (rebind ids (Some Fixture.comm5555) (_comms Fixture.kc_installed))] /\
    _comms (self w) !! "c1" = Some (mkComm (Some Fixture.shell0)).
Proof.
  intros ids.
  assert (Hp : comm_channel (kernel_client Fixture.kc_installed) = Some Fixture.comm5555)
    by reflexivity.
  assert (Hr : registered ids Fixture.kc_installed) by apply matched_all_registered.
  assert (Hr' : registered ids
                  (set_comms (rebind ids (Some Fixture.comm5555)
                                (_comms Fixture.kc_installed)) Fixture.kc_installed)).
  { intros i Hi. cbn [_comms set_comms]. rewrite rebind_lookup.
    rewrite decide_True by exact Hi. eauto. }
  split; [exact Hp|]. split; [reflexivity|].
  eexists. split.
  - exact (@X15_reply_on_comm_channel Fixture.quiet_base Fixture.plain_call VNone false
             Fixture.kc_installed Fixture.comm5555 (Ok tt) _ Hp Hr eq_refl Hr').
  - split; [reflexivity|]. vm_compute. reflexivity.
Defined.

(** ** The tunnel and the port of the comm channel *)

(** X13.  [_set_comm_port] opens at most one tunnel per call, and none
    for a local kernel, an absent port or the recorded port.  For a new
    port on a remote kernel the tunnel is its first action, whether it
    succeeds or not: from the random local port to the advertised port on
    the kernel's ip, through the host of the ssh parameters with their key
    and password, with a timeout of 10, by paramiko on Windows and by
    openssh elsewhere. *)
Theorem X13_tunnel_only_when_needed env port s :
  let out := run (_set_comm_port env port) s in
  (count is_tunnel (trace (snd out)) <= 1)%nat /\
  (ssh_parameters (kernel_client s) = None \/ port = None \/ port = remote_comm_port s ->
   count is_tunnel (trace (snd out)) = 0%nat) /\
  (forall host key pw p,
     ssh_parameters (kernel_client s) = Some (host, key, pw) ->
     port = Some p ->
     remote_comm_port s <> Some p ->
     head (trace (snd out)) =
       Some (EvSshTunnel (if os_nt env then Paramiko else OpenSSH)
                         (random_port env) p host (ip (kernel_client s)) key pw 10) /\
     count is_tunnel (trace (snd out)) = 1%nat).
Proof.
  intros out. subst out.
  assert (Hle0 : (count is_tunnel [] <= 1)%nat) by (unfold count; simpl; lia).
  destruct port as [p|];
    [|simpl; split; [exact Hle0|]; split; [reflexivity | intros; discriminate]].
  py_unfold. simpl. case_bool_decide as Heq.
  { simpl. split; [exact Hle0|]. split; [reflexivity|].
    intros host key pw p' _ [= <-] Hne. congruence. }
  destruct (ssh_parameters (kernel_client s)) as [[[h k] pw]|] eqn:Hssh; simpl.
  - destruct (tunnel_failure env); simpl; repeat (case_bool_decide; simpl);
      (split; [unfold count; simpl; lia|]);
      (split; [intros [Hn|[Hn|Hn]]; congruence|]);
      intros host key pw' p' [= <- <- <-] [= <-] _; split; reflexivity.
  - repeat (case_bool_decide; simpl);
      (split; [unfold count; simpl; lia|]); (split; [reflexivity|]);
      intros; discriminate.
Qed.

Lemma X13_witness :
  ssh_parameters (kernel_client Fixture.kc_remote) = Some ("gateway", "id_rsa", "secret") /\
  remote_comm_port Fixture.kc_remote <> Some 6000 /\
  let out := run (_set_comm_port Fixture.env_ok (Some 6000)) Fixture.kc_remote in
  head (trace (snd out)) =
    Some (EvSshTunnel OpenSSH 7000 6000 "gateway" "10.0.0.5" "id_rsa" "secret" 10) /\
  count is_tunnel (trace (snd out)) = 1%nat.
Proof.
  assert (H1 : ssh_parameters (kernel_client Fixture.kc_remote)
               = Some ("gateway", "id_rsa", "secret")) by reflexivity.
  assert (H2 : remote_comm_port Fixture.kc_remote <> Some 6000)
    by (vm_compute; discriminate).
  split; [exact H1|]. split; [exact H2|].
  exact (proj2 (proj2 (X13_tunnel_only_when_needed Fixture.env_ok (Some 6000)
                         Fixture.kc_remote))
           "gateway" "id_rsa" "secret" 6000 H1 eq_refl H2).
Defined.

Lemma channel_consistent_client s s' :
  kernel_client s' = kernel_client s -> channel_consistent s -> channel_consistent s'.
Proof. unfold channel_consistent. intros ->. auto. Qed.

Lemma channel_consistent_none s :
  comm_channel (kernel_client s) = None -> channel_consistent s.
Proof. intros Hnone ch Hch. rewrite Hnone in Hch. discriminate. Qed.

Lemma set_comm_port_consistent env port s :
  channel_consistent s ->
  channel_consistent (self (snd (run (_set_comm_port env port) s))).
Proof.
  intros Hcons.
  destruct port as [p|]; [|exact Hcons].
  py_unfold. simpl. case_bool_decide as Heq; [exact Hcons|].
  assert (Hnew : forall q t,
             channel_consistent
               (self (mkWorld
                        (set_kernel_client
                           (set_comm_channel
                              (Some (mkChannel "comm" q (bsession (kernel_client s))))
                              (set_comm_port (Some q) (kernel_client s)))
                           (set_remote_comm_port (Some p) s)) t))).
  { intros q t ch Hch. simpl in *. injection Hch as <-. eauto. }
  assert (Hold : forall t,
             channel_consistent (self (mkWorld (set_remote_comm_port (Some p) s) t))).
  { intros t. apply (channel_consistent_client s); [reflexivity | exact Hcons]. }
  destruct (ssh_parameters (kernel_client s)) as [[[h k] pw]|]; simpl;
    [destruct (tunnel_failure env); simpl|];
    repeat (case_bool_decide; simpl); first [exact (Hold []) | exact (Hnew _ [])].
Qed.

(** X14.  The comm channel of the client, when there is one, is the
    channel for socket type [comm] connected to the client's [comm_port]
    with the session identity: [open_comm] establishes this, and
    [_set_comm_port] (also when it fails), [shutdown_comm_channel],
    [remove] and [close] (also when they fail) keep it. *)
Theorem X14_comm_channel_matches_comm_port env port comm_id new_id client s :
  channel_consistent (self (snd (run (open_comm new_id client) s))) /\
  (channel_consistent s ->
   channel_consistent (self (snd (run (_set_comm_port env port) s))) /\
   channel_consistent (self (snd (run shutdown_comm_channel s))) /\
   channel_consistent (self (snd (run (remove comm_id) s))) /\
   channel_consistent (self (snd (run (close comm_id) s)))).
Proof.
  split; [apply channel_consistent_none; reflexivity|].
  intros Hcons. split; [apply set_comm_port_consistent, Hcons|]. split; [|split].
  - apply channel_consistent_none. unfold run. rewrite shutdown_comm_channel_run.
    cbn [snd self]. destruct (comm_channel (kernel_client s)) eqn:Hch;
      [reflexivity | exact Hch].
  - destruct comm_id as [c|].
    + rewrite (proj2 (remove_run s) c).
      destruct (_comms s !! c); apply (channel_consistent_client s);
        solve [reflexivity | exact Hcons].
    + rewrite (proj1 (remove_run s)).
      apply (channel_consistent_client s); [reflexivity | exact Hcons].
  - apply channel_consistent_none. apply (close_run comm_id s).
Qed.

(** X14 along a session: open, advertise 5555, advertise 6000. *)
Lemma X14_witness :
  let s1 := Fixture.after (open_comm "c1" Fixture.local_client)
                          (init Fixture.local_client) in
  let s2 := Fixture.after (_set_comm_port Fixture.env_ok (Some 5555)) s1 in
  let s3 := Fixture.after (_set_comm_port Fixture.env_ok (Some 6000)) s2 in
  channel_consistent s1 /\ channel_consistent s2 /\ channel_consistent s3 /\
  comm_channel (kernel_client s3) = Some (mkChannel "comm" 6000 "sess").
Proof.
  intros s1 s2 s3.
  assert (H1 : channel_consistent s1).
  { exact (proj1 (X14_comm_channel_matches_comm_port Fixture.env_ok None None "c1"
                    Fixture.local_client (init Fixture.local_client))). }
  assert (H2 : channel_consistent s2).
  { exact (proj1 (proj2 (X14_comm_channel_matches_comm_port Fixture.env_ok (Some 5555)
                           None "c1" Fixture.local_client s1) H1)). }
  assert (H3 : channel_consistent s3).
  { exact (proj1 (proj2 (X14_comm_channel_matches_comm_port Fixture.env_ok (Some 6000)
                           None "c1" Fixture.local_client s2) H2)). }
  split; [exact H1|]. split; [exact H2|]. split; [exact H3|]. reflexivity.
Defined.
